(** * Weight-triggered dispensing controller (code.ino)

    A shallow embedding of the Arduino sketch and the properties of its
    state machine.  The sketch is a polling loop over four modes
    (WEIGHT_INPUT, ZEROING, DISPENSING, FINISHED) with global variables,
    function-local statics, and calls into four external drivers (keypad,
    HX711 load cell, I2C display, motor pins) plus the serial port.

    - Every global and every function-local static is a field of [World].
    - Commands sent to the drivers and to the serial port are pushed on
      the trace [out] (most recent first); the levels last written to the
      two motor pins are also latched in [motorLine1] / [motorLine2].
    - Values that come from outside ([millis()], [getKey()], the load-cell
      queries) are read from an oracle [Env]; the n-th external query of a
      run reads the oracle at index n, so an arbitrary environment
      behaviour is an arbitrary [Env].  [String::toFloat] of the Arduino
      core is a component of [Env] as well: the theorems hold for any
      parser, unless they state a hypothesis on it.
    - [unsigned long] is [Z] reduced modulo 2^32; [float] is IEEE binary32
      as specified by [SpecFloat]. *)

From Stdlib Require Import ZArith Bool List String Ascii Lia.
From Stdlib Require Import Floats.SpecFloat.
Import ListNotations.

Local Open Scope string_scope.
Local Open Scope Z_scope.

(** ** Machine numbers *)

(** [float] on the target: IEEE 754 binary32. *)
Module F32.
Definition prec : Z := 24.
Definition emax : Z := 128.

Definition ofZ (n : Z) : spec_float := binary_normalize prec emax n 0 false.
Definition zero : spec_float := ofZ 0.
Definition sub : spec_float -> spec_float -> spec_float := SFsub prec emax.
Definition div : spec_float -> spec_float -> spec_float := SFdiv prec emax.
Definition neg : spec_float -> spec_float := SFopp.

(** C comparison operators; each is false when an operand is NaN. *)
Definition leb (a b : spec_float) : bool := SFleb a b.   (* a <= b *)
Definition geb (a b : spec_float) : bool := SFleb b a.   (* a >= b *)
Definition gtb (a b : spec_float) : bool := SFltb b a.   (* a >  b *)

(** Arduino.h: [#define abs(x) ((x)>0?(x):-(x))]. *)
Definition abs (x : spec_float) : spec_float :=
  if gtb x (ofZ 0) then x else neg x.
End F32.

Definition float32 : Set := spec_float.

(** [unsigned long] arithmetic: subtraction wraps modulo 2^32. *)
Definition ULONG : Z := 2 ^ 32.
Definition toULong (x : Z) : Z := x mod ULONG.
Definition usub (a b : Z) : Z := (a - b) mod ULONG.

(** ** Constants of the sketch *)

Definition MOTOR_PIN1 : Z := 9.
Definition MOTOR_PIN2 : Z := 10.
Definition MOTOR_PWM_PIN : Z := 11.
Definition MAX_MOTOR_SPEED : Z := 255.
Definition SCREEN_UPDATE_DELAY : Z := 500.
Definition SENSOR_READ_DELAY : Z := 200.
Definition SENSOR_CALIBRATION : float32 := F32.div (F32.ofZ 2171) (F32.ofZ 100).
Definition HIGH : bool := true.
Definition LOW : bool := false.

(** [keypadButtons]: the 4x3 key map handed to the keypad driver. *)
Definition keypadButtons : list (list ascii) :=
  [ ["1"; "2"; "3"]; ["4"; "5"; "6"]; ["7"; "8"; "9"]; ["*"; "0"; "#"] ]%char.

(** The keys the driver can deliver. *)
Definition keypadKeys : list ascii := List.concat keypadButtons.

(** [NO_KEY], the value [getKey()] returns when nothing is pressed. *)
Definition NO_KEY : ascii := zero.

Inductive SystemMode := WEIGHT_INPUT | ZEROING | DISPENSING | FINISHED.

(** ** Output trace *)

(** A piece of printed text: literal characters, or a float printed with a
    number of decimals ([String(f)], [Serial.print(f)] and
    [lcd.print(f, 2)] all use two). *)
Inductive Piece :=
| Txt (s : string)
| Num (x : float32) (decimals : nat).

Inductive Event :=
| SerialBegin (baud : Z)
| SerialPrint (text : list Piece)
| SerialPrintln (text : list Piece)
| LcdInit
| LcdBacklight
| LcdClear
| LcdSetCursor (col row : Z)
| LcdPrint (text : list Piece)
| SensorBegin
| SensorStart (stabilizing : Z) (doTare : bool)
| SensorSetCalFactor (cal : float32)
| SensorTare
| PinModeOutput (pin : Z)
| AnalogWrite (pin : Z) (value : Z)
| DigitalWrite (pin : Z) (level : bool).

(** ** Program state *)

Record World := mkWorld {
  (* globals *)
  isMotorOn : bool;
  fineControlMode : bool;
  currentMode : SystemMode;
  desiredWeight : float32;
  measuredWeight : float32;
  userInput : string;
  previousUpdate : Z;
  motorStartTime : Z;
  completionTime : Z;
  (* statics of performTaring; [tareBeginTime] has a run-time initialiser,
     [tareBeginTimeReady] is its initialisation guard *)
  isTaring : bool;
  tareBeginTimeReady : bool;
  tareBeginTime : Z;
  (* statics of controlDispensing *)
  lastMeasurement : Z;
  motorPulseWidth : Z;
  (* statics of preciseDispensing *)
  lastMotorChange : Z;
  isMotorActive : bool;
  (* levels latched on MOTOR_PIN1 and MOTOR_PIN2 *)
  motorLine1 : bool;
  motorLine2 : bool;
  (* commands issued so far, most recent first *)
  out : list Event;
  (* number of external queries made so far *)
  tick : nat
}.

(** The state at power-on: every initialiser of the sketch. *)
Definition powerOn : World :=
  {| isMotorOn := false; fineControlMode := false;
     currentMode := WEIGHT_INPUT;
     desiredWeight := F32.zero; measuredWeight := F32.zero;
     userInput := EmptyString;
     previousUpdate := 0; motorStartTime := 0; completionTime := 0;
     isTaring := false; tareBeginTimeReady := false; tareBeginTime := 0;
     lastMeasurement := 0; motorPulseWidth := 100;
     lastMotorChange := 0; isMotorActive := false;
     motorLine1 := LOW; motorLine2 := LOW;
     out := []; tick := 0 |}.

(** Field updates. *)
Definition set_isMotorOn (v : bool) (w : World) : World :=
  mkWorld v (fineControlMode w) (currentMode w) (desiredWeight w)
    (measuredWeight w) (userInput w) (previousUpdate w) (motorStartTime w)
    (completionTime w) (isTaring w) (tareBeginTimeReady w) (tareBeginTime w)
    (lastMeasurement w) (motorPulseWidth w) (lastMotorChange w)
    (isMotorActive w) (motorLine1 w) (motorLine2 w) (out w) (tick w).

Definition set_fineControlMode (v : bool) (w : World) : World :=
  mkWorld (isMotorOn w) v (currentMode w) (desiredWeight w)
    (measuredWeight w) (userInput w) (previousUpdate w) (motorStartTime w)
    (completionTime w) (isTaring w) (tareBeginTimeReady w) (tareBeginTime w)
    (lastMeasurement w) (motorPulseWidth w) (lastMotorChange w)
    (isMotorActive w) (motorLine1 w) (motorLine2 w) (out w) (tick w).

Definition set_currentMode (v : SystemMode) (w : World) : World :=
  mkWorld (isMotorOn w) (fineControlMode w) v (desiredWeight w)
    (measuredWeight w) (userInput w) (previousUpdate w) (motorStartTime w)
    (completionTime w) (isTaring w) (tareBeginTimeReady w) (tareBeginTime w)
    (lastMeasurement w) (motorPulseWidth w) (lastMotorChange w)
    (isMotorActive w) (motorLine1 w) (motorLine2 w) (out w) (tick w).

Definition set_desiredWeight (v : float32) (w : World) : World :=
  mkWorld (isMotorOn w) (fineControlMode w) (currentMode w) v
    (measuredWeight w) (userInput w) (previousUpdate w) (motorStartTime w)
    (completionTime w) (isTaring w) (tareBeginTimeReady w) (tareBeginTime w)
    (lastMeasurement w) (motorPulseWidth w) (lastMotorChange w)
    (isMotorActive w) (motorLine1 w) (motorLine2 w) (out w) (tick w).

Definition set_measuredWeight (v : float32) (w : World) : World :=
  mkWorld (isMotorOn w) (fineControlMode w) (currentMode w)
    (desiredWeight w) v (userInput w) (previousUpdate w) (motorStartTime w)
    (completionTime w) (isTaring w) (tareBeginTimeReady w) (tareBeginTime w)
    (lastMeasurement w) (motorPulseWidth w) (lastMotorChange w)
    (isMotorActive w) (motorLine1 w) (motorLine2 w) (out w) (tick w).

Definition set_userInput (v : string) (w : World) : World :=
  mkWorld (isMotorOn w) (fineControlMode w) (currentMode w)
    (desiredWeight w) (measuredWeight w) v (previousUpdate w)
    (motorStartTime w) (completionTime w) (isTaring w)
    (tareBeginTimeReady w) (tareBeginTime w) (lastMeasurement w)
    (motorPulseWidth w) (lastMotorChange w) (isMotorActive w) (motorLine1 w)
    (motorLine2 w) (out w) (tick w).

Definition set_previousUpdate (v : Z) (w : World) : World :=
  mkWorld (isMotorOn w) (fineControlMode w) (currentMode w)
    (desiredWeight w) (measuredWeight w) (userInput w) v (motorStartTime w)
    (completionTime w) (isTaring w) (tareBeginTimeReady w) (tareBeginTime w)
    (lastMeasurement w) (motorPulseWidth w) (lastMotorChange w)
    (isMotorActive w) (motorLine1 w) (motorLine2 w) (out w) (tick w).

Definition set_completionTime (v : Z) (w : World) : World :=
  mkWorld (isMotorOn w) (fineControlMode w) (currentMode w)
    (desiredWeight w) (measuredWeight w) (userInput w) (previousUpdate w)
    (motorStartTime w) v (isTaring w) (tareBeginTimeReady w)
    (tareBeginTime w) (lastMeasurement w) (motorPulseWidth w)
    (lastMotorChange w) (isMotorActive w) (motorLine1 w) (motorLine2 w)
    (out w) (tick w).

Definition set_isTaring (v : bool) (w : World) : World :=
  mkWorld (isMotorOn w) (fineControlMode w) (currentMode w)
    (desiredWeight w) (measuredWeight w) (userInput w) (previousUpdate w)
    (motorStartTime w) (completionTime w) v (tareBeginTimeReady w)
    (tareBeginTime w) (lastMeasurement w) (motorPulseWidth w)
    (lastMotorChange w) (isMotorActive w) (motorLine1 w) (motorLine2 w)
    (out w) (tick w).

Definition set_tareBeginTimeReady (v : bool) (w : World) : World :=
  mkWorld (isMotorOn w) (fineControlMode w) (currentMode w)
    (desiredWeight w) (measuredWeight w) (userInput w) (previousUpdate w)
    (motorStartTime w) (completionTime w) (isTaring w) v (tareBeginTime w)
    (lastMeasurement w) (motorPulseWidth w) (lastMotorChange w)
    (isMotorActive w) (motorLine1 w) (motorLine2 w) (out w) (tick w).

Definition set_tareBeginTime (v : Z) (w : World) : World :=
  mkWorld (isMotorOn w) (fineControlMode w) (currentMode w)
    (desiredWeight w) (measuredWeight w) (userInput w) (previousUpdate w)
    (motorStartTime w) (completionTime w) (isTaring w)
    (tareBeginTimeReady w) v (lastMeasurement w) (motorPulseWidth w)
    (lastMotorChange w) (isMotorActive w) (motorLine1 w) (motorLine2 w)
    (out w) (tick w).

Definition set_lastMeasurement (v : Z) (w : World) : World :=
  mkWorld (isMotorOn w) (fineControlMode w) (currentMode w)
    (desiredWeight w) (measuredWeight w) (userInput w) (previousUpdate w)
    (motorStartTime w) (completionTime w) (isTaring w)
    (tareBeginTimeReady w) (tareBeginTime w) v (motorPulseWidth w)
    (lastMotorChange w) (isMotorActive w) (motorLine1 w) (motorLine2 w)
    (out w) (tick w).

Definition set_lastMotorChange (v : Z) (w : World) : World :=
  mkWorld (isMotorOn w) (fineControlMode w) (currentMode w)
    (desiredWeight w) (measuredWeight w) (userInput w) (previousUpdate w)
    (motorStartTime w) (completionTime w) (isTaring w)
    (tareBeginTimeReady w) (tareBeginTime w) (lastMeasurement w)
    (motorPulseWidth w) v (isMotorActive w) (motorLine1 w) (motorLine2 w)
    (out w) (tick w).

Definition set_isMotorActive (v : bool) (w : World) : World :=
  mkWorld (isMotorOn w) (fineControlMode w) (currentMode w)
    (desiredWeight w) (measuredWeight w) (userInput w) (previousUpdate w)
    (motorStartTime w) (completionTime w) (isTaring w)
    (tareBeginTimeReady w) (tareBeginTime w) (lastMeasurement w)
    (motorPulseWidth w) (lastMotorChange w) v (motorLine1 w) (motorLine2 w)
    (out w) (tick w).

Definition set_motorLine1 (v : bool) (w : World) : World :=
  mkWorld (isMotorOn w) (fineControlMode w) (currentMode w)
    (desiredWeight w) (measuredWeight w) (userInput w) (previousUpdate w)
    (motorStartTime w) (completionTime w) (isTaring w)
    (tareBeginTimeReady w) (tareBeginTime w) (lastMeasurement w)
    (motorPulseWidth w) (lastMotorChange w) (isMotorActive w) v
    (motorLine2 w) (out w) (tick w).

Definition set_motorLine2 (v : bool) (w : World) : World :=
  mkWorld (isMotorOn w) (fineControlMode w) (currentMode w)
    (desiredWeight w) (measuredWeight w) (userInput w) (previousUpdate w)
    (motorStartTime w) (completionTime w) (isTaring w)
    (tareBeginTimeReady w) (tareBeginTime w) (lastMeasurement w)
    (motorPulseWidth w) (lastMotorChange w) (isMotorActive w) (motorLine1 w)
    v (out w) (tick w).

Definition set_out (v : list Event) (w : World) : World :=
  mkWorld (isMotorOn w) (fineControlMode w) (currentMode w)
    (desiredWeight w) (measuredWeight w) (userInput w) (previousUpdate w)
    (motorStartTime w) (completionTime w) (isTaring w)
    (tareBeginTimeReady w) (tareBeginTime w) (lastMeasurement w)
    (motorPulseWidth w) (lastMotorChange w) (isMotorActive w) (motorLine1 w)
    (motorLine2 w) v (tick w).

Definition set_tick (v : nat) (w : World) : World :=
  mkWorld (isMotorOn w) (fineControlMode w) (currentMode w)
    (desiredWeight w) (measuredWeight w) (userInput w) (previousUpdate w)
    (motorStartTime w) (completionTime w) (isTaring w)
    (tareBeginTimeReady w) (tareBeginTime w) (lastMeasurement w)
    (motorPulseWidth w) (lastMotorChange w) (isMotorActive w) (motorLine1 w)
    (motorLine2 w) (out w) v.

(** ** Environment *)

Record Env := mkEnv {
  millisAt : nat -> Z;              (* millis() *)
  keyAt : nat -> ascii;             (* userKeypad.getKey() *)
  updateAt : nat -> bool;           (* weightSensor.update() is non-zero *)
  dataAt : nat -> float32;          (* weightSensor.getData() *)
  tareStatusAt : nat -> bool;       (* weightSensor.getTareStatus() *)
  tareTimeoutAt : nat -> bool;      (* weightSensor.getTareTimeoutFlag() *)
  signalTimeoutAt : nat -> bool;    (* weightSensor.getSignalTimeoutFlag() *)
  toFloat : string -> float32       (* String::toFloat() *)
}.

(** ** A state monad for the handlers *)

Definition M (A : Type) : Type := World -> A * World.

Definition ret {A} (a : A) : M A := fun w => (a, w).
Definition bind {A B} (m : M A) (k : A -> M B) : M B :=
  fun w => let (a, w') := m w in k a w'.
Definition get {A} (f : World -> A) : M A := fun w => (f w, w).
Definition modify (f : World -> World) : M unit := fun w => (tt, f w).
Definition exec {A} (m : M A) (w : World) : World := snd (m w).
Definition skip : M unit := ret tt.

Declare Scope prog_scope.
Delimit Scope prog_scope with prog.
Notation "x <- m ;; k" := (bind m (fun x => k))
  (at level 100, m at next level, right associativity) : prog_scope.
Notation "m ;; k" := (bind m (fun _ => k))
  (at level 100, right associativity) : prog_scope.
Notation "f ::= v" := (modify (f v)) (at level 70) : prog_scope.
Local Open Scope prog_scope.

Definition emit (e : Event) : M unit :=
  modify (fun w => set_out (e :: out w) w).

Section Sketch.
Variable E : Env.

(** One external query: read the oracle at the current index, advance. *)
Definition ask {A} (oracle : Env -> nat -> A) : M A :=
  fun w => (oracle E (tick w), set_tick (S (tick w)) w).

Definition millis : M Z := t <- ask millisAt ;; ret (toULong t).

Definition isdigit (c : ascii) : bool :=
  ((48 <=? nat_of_ascii c) && (nat_of_ascii c <=? 57))%nat.

Definition modeName (m : SystemMode) : string :=
  match m with
  | WEIGHT_INPUT => "WEIGHT_INPUT"
  | ZEROING => "ZEROING"
  | DISPENSING => "DISPENSING"
  | FINISHED => "FINISHED"
  end.

Definition logMessage (text : list Piece) : M unit :=
  emit (SerialPrint [Txt "[LOG] "]) ;;
  emit (SerialPrintln text).

Definition showCurrentMode : M unit :=
  emit (SerialPrint [Txt "Current mode: "]) ;;
  m <- get currentMode ;;
  emit (SerialPrintln [Txt (modeName m)]).

Definition showOnDisplay (message : string) : M unit :=
  emit LcdClear ;;
  emit (LcdSetCursor 0 0) ;;
  emit (LcdPrint [Txt message]) ;;
  logMessage [Txt "Display shows: "; Txt message].

Definition refreshDisplay : M unit :=
  emit (LcdSetCursor 0 1) ;;
  emit (LcdPrint [Txt "                "]) ;;
  emit (LcdSetCursor 0 1) ;;
  s <- get userInput ;;
  emit (LcdPrint [Txt s]).

Definition digitalWrite (pin : Z) (level : bool) : M unit :=
  emit (DigitalWrite pin level) ;;
  if (pin =? MOTOR_PIN1)%Z then set_motorLine1 ::= level
  else if (pin =? MOTOR_PIN2)%Z then set_motorLine2 ::= level
  else skip.

Definition turnMotorOn : M unit :=
  fine <- get fineControlMode ;;
  (if negb fine then
     digitalWrite MOTOR_PIN1 HIGH ;;
     digitalWrite MOTOR_PIN2 LOW ;;
     logMessage [Txt "Motor activated (full power)"]
   else skip) ;;
  set_isMotorOn ::= true.

Definition turnMotorOff : M unit :=
  digitalWrite MOTOR_PIN1 LOW ;;
  digitalWrite MOTOR_PIN2 LOW ;;
  set_isMotorOn ::= false ;;
  logMessage [Txt "Motor stopped"].

Definition restartSystem : M unit :=
  set_desiredWeight ::= F32.ofZ 0 ;;
  set_measuredWeight ::= F32.ofZ 0 ;;
  set_userInput ::= EmptyString ;;
  set_fineControlMode ::= false ;;
  turnMotorOff ;;
  set_currentMode ::= WEIGHT_INPUT ;;
  showOnDisplay "Input Weight (g):" ;;
  logMessage [Txt "System reset done"] ;;
  showCurrentMode.

(** [setup()]; the result is [false] when the sketch parks itself in the
    [while(1);] of the sensor-fault branch. *)
Definition setup : M bool :=
  emit (SerialBegin 9600) ;;
  logMessage [Txt "Starting system setup"] ;;
  emit SensorBegin ;;
  emit (SensorStart 2000 true) ;;
  tareFault <- ask tareTimeoutAt ;;
  fault <- (if tareFault then ret true else ask signalTimeoutAt) ;;
  if fault then
    logMessage [Txt "Error: Sensor initialization problem"] ;;
    showOnDisplay "Sensor Fault!" ;;
    ret false
  else
    emit (SensorSetCalFactor SENSOR_CALIBRATION) ;;
    logMessage [Txt "Weight sensor ready"] ;;
    emit LcdInit ;;
    emit LcdBacklight ;;
    showOnDisplay "Input Weight (g):" ;;
    logMessage [Txt "Display activated"] ;;
    emit (PinModeOutput MOTOR_PIN1) ;;
    emit (PinModeOutput MOTOR_PIN2) ;;
    emit (AnalogWrite MOTOR_PWM_PIN MAX_MOTOR_SPEED) ;;
    turnMotorOff ;;
    logMessage [Txt "Motor system prepared"] ;;
    logMessage [Txt "Setup finished"] ;;
    showCurrentMode ;;
    ret true.

(** The body of [processUserInput] once the key has been read. *)
Definition handleKey (pressedKey : ascii) : M unit :=
  if Ascii.eqb pressedKey NO_KEY then skip
  else
    logMessage [Txt "Pressed key: "; Txt (String pressedKey EmptyString)] ;;
    if Ascii.eqb pressedKey "#" then
      buf <- get userInput ;;
      if (0 <? String.length buf)%nat then
        set_desiredWeight ::= toFloat E buf ;;
        d <- get desiredWeight ;;
        logMessage [Txt "Target weight: "; Num d 2; Txt " grams"] ;;
        if F32.gtb d (F32.ofZ 0) then
          set_currentMode ::= ZEROING ;;
          showOnDisplay "Calibrating..." ;;
          logMessage [Txt "Changing to ZEROING mode"] ;;
          showCurrentMode
        else skip
      else skip
    else if Ascii.eqb pressedKey "*" then
      set_userInput ::= EmptyString ;;
      showOnDisplay "Input Weight (g):" ;;
      emit (LcdSetCursor 0 1) ;;
      emit (LcdPrint [Txt "                "]) ;;
      logMessage [Txt "Cleared user input"]
    else
      buf <- get userInput ;;
      if (isdigit pressedKey || Ascii.eqb pressedKey ".")
         && (String.length buf <? 6)%nat then
        set_userInput ::= (buf ++ String pressedKey EmptyString)%string ;;
        refreshDisplay ;;
        buf' <- get userInput ;;
        logMessage [Txt "User entry: "; Txt buf']
      else skip.

Definition processUserInput : M unit :=
  pressedKey <- ask keyAt ;;
  handleKey pressedKey.

Definition performTaring : M unit :=
  (* first execution: run the initialiser of [tareBeginTime] *)
  ready <- get tareBeginTimeReady ;;
  (if ready then skip
   else
     t <- millis ;;
     set_tareBeginTime ::= t ;;
     set_tareBeginTimeReady ::= true) ;;
  taring <- get isTaring ;;
  if negb taring then
    logMessage [Txt "Beginning taring process..."] ;;
    emit SensorTare ;;
    set_isTaring ::= true ;;
    t <- millis ;;
    set_tareBeginTime ::= t
  else
    now <- millis ;;
    begin <- get tareBeginTime ;;
    if 10000 <? usub now begin then
      logMessage [Txt "ERROR: Taring took too long!"] ;;
      tareFault <- ask tareTimeoutAt ;;
      (if tareFault then logMessage [Txt "Tare timeout occurred"]
       else skip) ;;
      signalFault <- ask signalTimeoutAt ;;
      (if signalFault then logMessage [Txt "Signal timeout occurred"]
       else skip) ;;
      restartSystem
    else
      fresh <- ask updateAt ;;
      if fresh then
        done <- ask tareStatusAt ;;
        if done then
          logMessage [Txt "Taring successful"] ;;
          set_isTaring ::= false ;;
          set_currentMode ::= DISPENSING ;;
          turnMotorOn
        else logMessage [Txt "Taring ongoing..."]
      else logMessage [Txt "Waiting for taring update..."].

Definition preciseDispensing (onTime : Z) : M unit :=
  let offTime := 200 in
  now <- millis ;;
  last <- get lastMotorChange ;;
  let timeSinceChange := usub now last in
  active <- get isMotorActive ;;
  if active then
    if toULong onTime <=? timeSinceChange then
      digitalWrite MOTOR_PIN1 LOW ;;
      set_isMotorActive ::= false ;;
      set_lastMotorChange ::= now ;;
      logMessage [Txt "Motor deactivated (fine control)"]
    else skip
  else
    if offTime <=? timeSinceChange then
      digitalWrite MOTOR_PIN1 HIGH ;;
      digitalWrite MOTOR_PIN2 LOW ;;
      set_isMotorActive ::= true ;;
      set_lastMotorChange ::= now ;;
      logMessage [Txt "Motor activated (fine control)"]
    else skip.

(** The four stages of [controlDispensing], in source order.  [abs] is
    the Arduino macro [((x)>0?(x):-(x))]: its argument [getData()] is
    evaluated twice, once for the sign test and once for the value. *)

Definition sampleSensor : M unit :=
  now <- millis ;;
  last <- get lastMeasurement ;;
  if SENSOR_READ_DELAY <=? usub now last then
    fresh <- ask updateAt ;;
    (if fresh then
       tested <- ask dataAt ;;
       x <- ask dataAt ;;
       set_measuredWeight ::=
         (if F32.gtb tested (F32.ofZ 0) then x else F32.neg x) ;;
       m <- get measuredWeight ;;
       d <- get desiredWeight ;;
       emit (SerialPrint [Txt "Measured: "]) ;;
       emit (SerialPrint [Num m 2]) ;;
       emit (SerialPrint [Txt " / Needed: "]) ;;
       emit (SerialPrintln [Num d 2])
     else skip) ;;
    t <- millis ;;
    set_lastMeasurement ::= t
  else skip.

Definition refreshReadout : M unit :=
  now <- millis ;;
  last <- get previousUpdate ;;
  if SCREEN_UPDATE_DELAY <=? usub now last then
    m <- get measuredWeight ;;
    d <- get desiredWeight ;;
    emit (LcdSetCursor 0 1) ;;
    emit (LcdPrint [Num m 2]) ;;
    emit (LcdPrint [Txt "g/"]) ;;
    emit (LcdPrint [Num d 2]) ;;
    emit (LcdPrint [Txt "g   "]) ;;
    t <- millis ;;
    set_previousUpdate ::= t
  else skip.

Definition driveMotor : M unit :=
  d <- get desiredWeight ;;
  (if F32.leb d (F32.ofZ 600) then set_fineControlMode ::= true
   else skip) ;;
  m <- get measuredWeight ;;
  fine <- get fineControlMode ;;
  if F32.geb m (F32.sub d (F32.ofZ 200)) && fine then preciseDispensing 20
  else if fine then preciseDispensing 80
  else skip.

Definition manageMotor : M unit :=
  m <- get measuredWeight ;;
  d <- get desiredWeight ;;
  fine <- get fineControlMode ;;
  if F32.geb m d then
    logMessage [Txt "Reached target weight"] ;;
    turnMotorOff ;;
    set_currentMode ::= FINISHED ;;
    showOnDisplay "Completed!" ;;
    t <- millis ;;
    set_completionTime ::= t ;;
    logMessage [Txt "Switching to FINISHED mode"] ;;
    showCurrentMode
  else if F32.gtb m (F32.sub d (F32.ofZ 500)) && negb fine then
    set_fineControlMode ::= true ;;
    logMessage [Txt "Starting fine control"]
  else skip.

Definition controlDispensing : M unit :=
  sampleSensor ;;
  refreshReadout ;;
  driveMotor ;;
  manageMotor.

Definition showCompletion : M unit :=
  now <- millis ;;
  done <- get completionTime ;;
  if 5000 <=? usub now done then
    logMessage [Txt "Preparing for restart"] ;;
    restartSystem
  else skip.

(** [loop()]: one iteration of the polling loop. *)
Definition loop : M unit :=
  mode <- get currentMode ;;
  match mode with
  | WEIGHT_INPUT => processUserInput
  | ZEROING => performTaring
  | DISPENSING => controlDispensing
  | FINISHED => showCompletion
  end.

(** The state [setup()] leaves behind, and the state [loop()] starts
    from when [setup()] returns. *)
Definition booted : World := snd (setup powerOn).

Definition boot : option World :=
  if fst (setup powerOn) then Some booted else None.

(** [n] iterations of [loop()]. *)
Fixpoint run (n : nat) (w : World) : World :=
  match n with
  | O => w
  | S n' => run n' (exec loop w)
  end.

Inductive reachable : World -> Prop :=
| reach_boot w : boot = Some w -> reachable w
| reach_loop w : reachable w -> reachable (exec loop w).

End Sketch.

(** ** Reading the trace *)

Definition isLcd (e : Event) : bool :=
  match e with
  | LcdInit | LcdBacklight | LcdClear | LcdSetCursor _ _ | LcdPrint _ => true
  | _ => false
  end.

(** The display commands issued so far, most recent first. *)
Definition lcdTrace (w : World) : list Event := filter isLcd (out w).

(** The last thing done to the display was [showOnDisplay message]. *)
Definition shows (message : string) (w : World) : Prop :=
  exists older,
    lcdTrace w =
    LcdPrint [Txt message] :: LcdSetCursor 0 0 :: LcdClear :: older.

Definition isTare (e : Event) : bool :=
  match e with SensorTare => true | _ => false end.

(** Number of tare commands sent to the load cell so far. *)
Definition tareCommands (w : World) : nat :=
  List.length (filter isTare (out w)).

(** What [restartSystem] prints and sends, most recent first. *)
Definition resetEvents : list Event :=
  [ SerialPrintln [Txt "WEIGHT_INPUT"];
    SerialPrint [Txt "Current mode: "];
    SerialPrintln [Txt "System reset done"];
    SerialPrint [Txt "[LOG] "];
    SerialPrintln [Txt "Display shows: "; Txt "Input Weight (g):"];
    SerialPrint [Txt "[LOG] "];
    LcdPrint [Txt "Input Weight (g):"];
    LcdSetCursor 0 0;
    LcdClear;
    SerialPrintln [Txt "Motor stopped"];
    SerialPrint [Txt "[LOG] "];
    DigitalWrite MOTOR_PIN2 LOW;
    DigitalWrite MOTOR_PIN1 LOW ].

(** The iteration leading from [u] to [u'] ended in a call of
    [restartSystem]: [u'] is the result of the reset run on a state [v]
    whose trace extends the trace of [u]. *)
Definition resetBetween (u u' : World) : Prop :=
  exists v evs, u' = exec restartSystem v /\ out v = (evs ++ out u)%list.

(** Number of decimal points in a buffer. *)
Fixpoint countDots (s : string) : nat :=
  match s with
  | EmptyString => 0%nat
  | String c s' => ((if Ascii.eqb c "." then 1 else 0) + countDots s')%nat
  end.

(** A key the buffer accepts. *)
Definition isEntryKey (k : ascii) : bool := isdigit k || Ascii.eqb k ".".

(** A stored target as the reset or a rejected entry leaves it. *)
Definition idleTarget (E : Env) (x : float32) : Prop :=
  x = F32.ofZ 0 \/
  exists s, x = toFloat E s /\ F32.gtb (toFloat E s) (F32.ofZ 0) = false.

(** ** A test bench

    A concrete environment for running the sketch: a decimal parser for
    [toFloat] and oracles scripted by lists (index = query number). *)

Definition digitValue (c : ascii) : Z := Z.of_nat (nat_of_ascii c) - 48.

(** Scan the longest prefix of the form digits [.] digits; the result
    [(n, k)] stands for n / 10^k. *)
Fixpoint scanDecimal (s : string) (dot : bool) (n k : Z) : Z * Z :=
  match s with
  | EmptyString => (n, k)
  | String c s' =>
      if isdigit c then
        scanDecimal s' dot (10 * n + digitValue c) (if dot then k + 1 else k)
      else if Ascii.eqb c "." && negb dot then scanDecimal s' true n k
      else (n, k)
  end.

(** Correctly rounded for the at most six characters the buffer holds
    (both n and 10^k are then exact in binary32). *)
Definition decimalToFloat (s : string) : float32 :=
  let (n, k) := scanDecimal s false 0 0 in
  F32.div (F32.ofZ n) (F32.ofZ (10 ^ k)).

(** An oracle given by the answers at selected query numbers. *)
Fixpoint scripted {A} (script : list (nat * A)) (d : A) (n : nat) : A :=
  match script with
  | [] => d
  | (i, a) :: rest => if Nat.eqb i n then a else scripted rest d n
  end.

Definition bench (clock : list (nat * Z)) (keys : list (nat * ascii))
    (upd : list (nat * bool)) (data : list (nat * float32))
    (tared : list (nat * bool)) : Env :=
  {| millisAt := scripted clock 0;
     keyAt := scripted keys NO_KEY;
     updateAt := scripted upd false;
     dataAt := scripted data F32.zero;
     tareStatusAt := scripted tared false;
     tareTimeoutAt := fun _ => false;
     signalTimeoutAt := fun _ => false;
     toFloat := decimalToFloat |}.

Definition on {A} (query : nat) (answer : A) : nat * A := (query, answer).

(** In the scripts below queries 0 and 1 are the two fault-flag reads of
    [setup()]; the first query of [loop()] is number 2. *)

(** The user types 5 and presses [#]. *)
Definition entryBench : Env :=
  bench [] [on 2 "5"%char; on 3 "#"%char] [] [] [].

(** The user types 0 and presses [#]. *)
Definition zeroBench : Env :=
  bench [] [on 2 "0"%char; on 3 "#"%char] [] [] [].

(** A keypad with a decimal-point key, pressed twice. *)
Definition pointsBench : Env :=
  bench [] [on 2 "."%char; on 3 "."%char] [] [] [].

(** The user types seven digits. *)
Definition fullBench : Env :=
  bench []
        [on 2 "1"%char; on 3 "2"%char; on 4 "3"%char; on 5 "4"%char;
         on 6 "5"%char; on 7 "6"%char; on 8 "7"%char]
        [] [] [].

(** Target 5; the tare starts at t = 1000 ms and is still not complete
    at t = 11001 ms; the user then enters 5 again, and the next poll of
    ZEROING comes at t = 12001 ms. *)
Definition retryBench : Env :=
  bench [on 4 1000; on 5 1000; on 6 11001; on 11 12001]
        [on 2 "5"%char; on 3 "#"%char; on 9 "5"%char; on 10 "#"%char]
        [] [] [].

(** A whole cycle with target 500: tare complete at t = 1200 ms, readings
    of 100 g and 510 g, restart after the dwell. *)
Definition cycleBench : Env :=
  bench [on 6 1000; on 7 1000; on 8 1200;
         on 11 1300; on 15 1300; on 16 1301; on 17 1301; on 18 1302;
         on 19 1600; on 23 1600; on 24 1601; on 25 1602; on 26 1603;
         on 27 7000]
        [on 2 "5"%char; on 3 "0"%char; on 4 "0"%char; on 5 "#"%char]
        [on 9 true; on 12 true; on 20 true]
        [on 13 (F32.ofZ 100); on 14 (F32.ofZ 100);
         on 21 (F32.ofZ 510); on 22 (F32.ofZ 510)]
        [on 10 true].

(** ** Notions used by the further properties *)

(** The buffer that typing the keys [ks] produces. *)
Fixpoint stringOf (ks : list ascii) : string :=
  match ks with
  | [] => EmptyString
  | k :: ks' => String k (stringOf ks')
  end.

(** Every character of a buffer is a digit or a decimal point. *)
Fixpoint entryOnly (s : string) : bool :=
  match s with
  | EmptyString => true
  | String c s' => isEntryKey c && entryOnly s'
  end.

(** What the motor variables look like in each mode. *)
Definition motorConsistent (w : World) : Prop :=
  motorLine2 w = LOW /\
  match currentMode w with
  | DISPENSING =>
      isMotorOn w = true /\ (fineControlMode w = false -> motorLine1 w = HIGH)
  | WEIGHT_INPUT | ZEROING =>
      motorLine1 w = LOW /\ isMotorOn w = false /\ fineControlMode w = false
  | FINISHED => motorLine1 w = LOW /\ isMotorOn w = false
  end.

(** The sixteen blanks that wipe a display row. *)
Definition blankRow : string := "                ".

(** The user types 5, then cancels. *)
Definition cancelBench : Env :=
  bench [] [on 2 "5"%char; on 3 "*"%char] [] [] [].

(** A load cell that reports a tare timeout during [setup()]. *)
Definition faultBench : Env :=
  {| millisAt := fun _ => 0;
     keyAt := fun _ => NO_KEY;
     updateAt := fun _ => false;
     dataAt := fun _ => F32.zero;
     tareStatusAt := fun _ => false;
     tareTimeoutAt := fun _ => true;
     signalTimeoutAt := fun _ => false;
     toFloat := decimalToFloat |}.

(** Target 5, tare started at t = 1000 ms; at t = 1200 ms the load cell
    has no fresh reading yet. *)
Definition waitBench : Env :=
  bench [on 4 1000; on 5 1000; on 6 1200]
        [on 2 "5"%char; on 3 "#"%char]
        [] [] [].

(** The display after an accepted key: the second row was blanked and
    rewritten with the buffer. *)
Definition echoes (w : World) : Prop :=
  exists older,
    lcdTrace w =
    LcdPrint [Txt (userInput w)] :: LcdSetCursor 0 1 ::
    LcdPrint [Txt blankRow] :: LcdSetCursor 0 1 :: older.

(** The cycle of [cycleBench] with a load cell that reads -100 g first. *)
Definition negativeBench : Env :=
  bench [on 6 1000; on 7 1000; on 8 1200;
         on 11 1300; on 15 1300; on 16 1301; on 17 1301; on 18 1302]
        [on 2 "5"%char; on 3 "0"%char; on 4 "0"%char; on 5 "#"%char]
        [on 9 true; on 12 true]
        [on 13 (F32.ofZ (-100)); on 14 (F32.ofZ (-100))]
        [on 10 true].

(** The cycle of [cycleBench] with a load cell whose two answers within
    one sample differ: 5 g, then -3 g. *)
Definition unstableBench : Env :=
  bench [on 6 1000; on 7 1000; on 8 1200;
         on 11 1300; on 15 1300; on 16 1301; on 17 1301; on 18 1302]
        [on 2 "5"%char; on 3 "0"%char; on 4 "0"%char; on 5 "#"%char]
        [on 9 true; on 12 true]
        [on 13 (F32.ofZ 5); on 14 (F32.ofZ (-3))]
        [on 10 true].

(** +0, a positive finite number or +infinity. *)
Definition notNegative (x : float32) : bool :=
  match x with
  | S754_zero false | S754_infinity false | S754_finite false _ _ => true
  | _ => false
  end.

(** ** Proof support *)

Arguments toULong : simpl never.
Arguments usub : simpl never.
Arguments F32.ofZ : simpl never.
Arguments F32.sub : simpl never.
Arguments F32.leb : simpl never.
Arguments F32.geb : simpl never.
Arguments F32.gtb : simpl never.
Arguments F32.abs : simpl never.
Arguments Z.leb : simpl never.
Arguments Z.ltb : simpl never.
Arguments Nat.ltb : simpl never.
Arguments Nat.leb : simpl never.
Arguments isdigit : simpl never.
Arguments String.length : simpl never.
Arguments resetBetween : simpl never.

Lemma exec_seq {A B} (m : M A) (k : M B) (w : World) :
  exec (m ;; k) w = exec k (exec m w).
Proof. unfold exec, bind. destruct (m w). reflexivity. Qed.

Ltac unfold_prog :=
  unfold loop, processUserInput, handleKey, performTaring, controlDispensing,
    sampleSensor, refreshReadout, driveMotor, manageMotor, preciseDispensing,
    showCompletion, restartSystem, turnMotorOn, turnMotorOff, showOnDisplay,
    refreshDisplay, showCurrentMode, logMessage, digitalWrite, millis, ask,
    emit, exec, bind, get, modify, ret, skip.

(** Case analysis on the atomic tests of the first conditional in the
    goal. *)
Ltac case_atom b :=
  lazymatch b with
  | ?x && ?y => first [case_atom x | case_atom y]
  | ?x || ?y => first [case_atom x | case_atom y]
  | negb ?x => case_atom x
  | true => fail
  | false => fail
  | context [if _ then _ else _] => fail
  | _ => destruct b eqn:?
  end.

Ltac case_if :=
  match goal with
  | |- context [if ?b then _ else _] => case_atom b
  end.

Ltac unfold_set :=
  cbv [set_isMotorOn set_fineControlMode set_currentMode set_desiredWeight
       set_measuredWeight set_userInput set_previousUpdate set_completionTime
       set_isTaring set_tareBeginTimeReady set_tareBeginTime
       set_lastMeasurement set_lastMotorChange set_isMotorActive
       set_motorLine1 set_motorLine2 set_out set_tick
       isMotorOn fineControlMode currentMode desiredWeight measuredWeight
       userInput previousUpdate motorStartTime completionTime isTaring
       tareBeginTimeReady tareBeginTime lastMeasurement motorPulseWidth
       lastMotorChange isMotorActive motorLine1 motorLine2 out tick].

(** Run a procedure symbolically on a state whose fields are variables. *)
Ltac symbolic w :=
  destruct w; unfold_prog; cbn; repeat (case_if; cbn); unfold_set.

Section Stages.
Variable E : Env.

Lemma loop_dispatch w :
  exec (loop E) w =
  exec (match currentMode w with
        | WEIGHT_INPUT => processUserInput E
        | ZEROING => performTaring E
        | DISPENSING => controlDispensing E
        | FINISHED => showCompletion E
        end) w.
Proof. reflexivity. Qed.

Lemma controlDispensing_stages w :
  exec (controlDispensing E) w =
  exec (manageMotor E)
    (exec (driveMotor E) (exec (refreshReadout E) (exec (sampleSensor E) w))).
Proof. unfold controlDispensing. now rewrite !exec_seq. Qed.

(** *** What each stage of [controlDispensing] can touch *)

Lemma sampleSensor_frame w :
  exists m lm o t,
    exec (sampleSensor E) w =
    set_measuredWeight m (set_lastMeasurement lm (set_out o (set_tick t w)))
    /\ filter isLcd o = lcdTrace w.
Proof.
  symbolic w; do 4 eexists; (split; [reflexivity | reflexivity]).
Qed.

Lemma refreshReadout_frame w :
  exists pu o t,
    exec (refreshReadout E) w =
    set_previousUpdate pu (set_out o (set_tick t w)).
Proof. symbolic w; do 3 eexists; reflexivity. Qed.

Lemma driveMotor_frame w :
  exists a lc l1 l2 o t,
    exec (driveMotor E) w =
    set_fineControlMode
      (fineControlMode w || F32.leb (desiredWeight w) (F32.ofZ 600))
      (set_isMotorActive a (set_lastMotorChange lc
         (set_motorLine1 l1 (set_motorLine2 l2
            (set_out o (set_tick t w)))))).
Proof.
  symbolic w; cbn in *; subst; try discriminate;
    rewrite ?orb_true_r, ?orb_false_r; do 6 eexists; reflexivity.
Qed.

(** The drive decision of one poll: which pulsed-drive call is made. *)
Lemma driveMotor_selects w :
  let d := desiredWeight w in
  let m := measuredWeight w in
  let fine := fineControlMode w || F32.leb d (F32.ofZ 600) in
  exec (driveMotor E) w =
  if fine then
    exec (preciseDispensing E
            (if F32.geb m (F32.sub d (F32.ofZ 200)) then 20 else 80))
         (set_fineControlMode true w)
  else w.
Proof.
  symbolic w; cbn in *; subst; try discriminate;
    rewrite ?orb_true_r, ?orb_false_r in *; try discriminate;
    try reflexivity.
Qed.

Lemma manageMotor_spec w :
  let w' := exec (manageMotor E) w in
  let m := measuredWeight w in
  let d := desiredWeight w in
  measuredWeight w' = m /\ desiredWeight w' = d /\
  fineControlMode w' =
    (fineControlMode w
     || (negb (F32.geb m d) && F32.gtb m (F32.sub d (F32.ofZ 500)))) /\
  (F32.geb m d = true ->
     currentMode w' = FINISHED /\
     motorLine1 w' = LOW /\ motorLine2 w' = LOW /\ isMotorOn w' = false /\
     shows "Completed!" w' /\
     completionTime w' = toULong (millisAt E (pred (tick w')))) /\
  (F32.geb m d = false -> currentMode w' = currentMode w).
Proof.
  symbolic w; cbn in *; subst; rewrite ?orb_false_r, ?orb_true_r;
    repeat split; intros; try discriminate; try reflexivity.
  eexists; reflexivity.
Qed.

End Stages.

(** ** The full reset *)

Lemma trace_nil (o : list Event) : o = ([] ++ o)%list.
Proof. reflexivity. Qed.

Lemma trace_cons (e : Event) (l evs o : list Event) :
  l = (evs ++ o)%list -> e :: l = ((e :: evs) ++ o)%list.
Proof. intros ->. reflexivity. Qed.

(** Split a trace [e1 :: ... :: en :: o] as [[e1; ...; en] ++ o]. *)
Ltac split_trace := repeat first [apply trace_nil | apply trace_cons].

(** A state about to be reset: the fields the reset overwrites are
    immaterial, the others are read off the goal. *)
Ltac before_reset :=
  eexists (mkWorld false false WEIGHT_INPUT F32.zero F32.zero EmptyString
             _ _ _ _ _ _ _ _ _ _ LOW LOW _ _).

Ltac reset_here :=
  unfold resetBetween; before_reset; eexists;
  split; [reflexivity | cbn [out]; split_trace].

Section Handlers.
Variable E : Env.

Lemma handleKey_frame k w :
  exists d m u o,
    exec (handleKey E k) w =
    set_desiredWeight d (set_currentMode m (set_userInput u (set_out o w))).
Proof. symbolic w; do 4 eexists; reflexivity. Qed.

Lemma processUserInput_handleKey w :
  exec (processUserInput E) w =
  exec (handleKey E (keyAt E (tick w))) (set_tick (S (tick w)) w).
Proof. reflexivity. Qed.

(** [performTaring] either ends in the full reset or leaves the
    measurement variables, the buffer and the control mode alone. *)
Lemma performTaring_frame w :
  resetBetween w (exec (performTaring E) w) \/
  exists it rdy tb m mo l1 l2 o t,
    exec (performTaring E) w =
    set_isTaring it (set_tareBeginTimeReady rdy (set_tareBeginTime tb
      (set_currentMode m (set_isMotorOn mo (set_motorLine1 l1
         (set_motorLine2 l2 (set_out o (set_tick t w)))))))).
Proof.
  symbolic w;
    first [ right; do 9 eexists; reflexivity | left; reset_here ].
Qed.

Lemma showCompletion_frame w :
  resetBetween w (exec (showCompletion E) w) \/
  exec (showCompletion E) w = set_tick (S (tick w)) w.
Proof.
  symbolic w; first [ right; reflexivity | left; reset_here ].
Qed.

Lemma manageMotor_frame w :
  exists f mo l1 l2 m ct o t,
    exec (manageMotor E) w =
    set_fineControlMode f (set_isMotorOn mo (set_motorLine1 l1
      (set_motorLine2 l2 (set_currentMode m (set_completionTime ct
         (set_out o (set_tick t w))))))).
Proof. symbolic w; do 8 eexists; reflexivity. Qed.

End Handlers.

(** ** Dispensing *)

(** The pulsed drive: an active phase lasts [onTime] ms, an idle phase the
    fixed 200 ms; [elapsed] is the time since the last phase change. *)
Lemma preciseDispensing_phases (E : Env) (onTime : Z) (v : World) :
  let v' := exec (preciseDispensing E onTime) v in
  let elapsed := usub (toULong (millisAt E (tick v))) (lastMotorChange v) in
  (isMotorActive v = true ->
     (isMotorActive v' = false <-> toULong onTime <= elapsed) /\
     (isMotorActive v' = false -> motorLine1 v' = LOW)) /\
  (isMotorActive v = false ->
     (isMotorActive v' = true <-> 200 <= elapsed) /\
     (isMotorActive v' = true -> motorLine1 v' = HIGH /\ motorLine2 v' = LOW)).
Proof.
  destruct v; cbn [isMotorActive tick lastMotorChange]; split; intros ->;
    unfold_prog; cbn.
  - destruct (Z.leb_spec (toULong onTime)
                (usub (toULong (millisAt E tick0)) lastMotorChange0));
      cbn; repeat split; intros; try discriminate; try reflexivity;
      try assumption; lia.
  - destruct (Z.leb_spec 200
                (usub (toULong (millisAt E tick0)) lastMotorChange0));
      cbn; repeat split; intros; try discriminate; try reflexivity;
      try assumption; lia.
Qed.

(** C1. In DISPENSING, one poll moves to FINISHED if and only if
    currentMass >= targetMass (currentMass being the reading the poll works
    with); otherwise the mode stays DISPENSING, so this is the only way
    out.  On that transition both motor lines are low and the motor is
    marked off, the display shows "Completed!", and [completionTime] is
    the value of the poll's last [millis()] call.  Nothing is assumed about
    [fineControlMode]. *)
Theorem dispensing_finishes_iff_target_reached (E : Env) (w : World) :
  currentMode w = DISPENSING ->
  let w' := exec (loop E) w in
  desiredWeight w' = desiredWeight w /\
  (currentMode w' = FINISHED <->
   F32.geb (measuredWeight w') (desiredWeight w) = true) /\
  (currentMode w' = FINISHED \/ currentMode w' = DISPENSING) /\
  (currentMode w' = FINISHED ->
   motorLine1 w' = LOW /\ motorLine2 w' = LOW /\ isMotorOn w' = false /\
   shows "Completed!" w' /\
   completionTime w' = toULong (millisAt E (pred (tick w')))).
Proof.
  intros Hmode w'. subst w'.
  rewrite loop_dispatch, Hmode, controlDispensing_stages.
  destruct (sampleSensor_frame E w) as (m & lm & o1 & t1 & -> & _).
  match goal with |- context [exec (refreshReadout E) ?x] =>
    destruct (refreshReadout_frame E x) as (pu & o2 & t2 & ->) end.
  match goal with |- context [exec (driveMotor E) ?x] =>
    destruct (driveMotor_frame E x) as (a & lc & l1 & l2 & o3 & t3 & ->) end.
  match goal with |- context [exec (manageMotor E) ?x] =>
    destruct (manageMotor_spec E x) as (Hm & Hd & _ & Hfin & Hstay);
    set (w3 := x) in * end.
  assert (Hmode3 : currentMode w3 = DISPENSING) by exact Hmode.
  assert (Hd3 : desiredWeight w3 = desiredWeight w) by reflexivity.
  rewrite Hm, Hd, <- Hd3. split; [reflexivity |].
  destruct (F32.geb (measuredWeight w3) (desiredWeight w3)) eqn:Hge.
  - destruct (Hfin eq_refl) as (Hf & Hrest).
    split; [tauto | split; [left; exact Hf | intros _; exact Hrest]].
  - specialize (Hstay eq_refl). rewrite Hmode3 in Hstay.
    rewrite Hstay.
    split; [split; discriminate | split; [right; reflexivity | discriminate]].
Qed.

(** C7. During a DISPENSING poll [fineControlMode] is switched on exactly
    when targetMass <= 600 (on every poll, whatever the reading), or when
    the poll's reading satisfies currentMass > targetMass - 500 while the
    completion test currentMass >= targetMass fails; in every other case it
    keeps the value it had. *)
Theorem fine_control_enabled_exactly (E : Env) (w : World) :
  currentMode w = DISPENSING ->
  let w' := exec (loop E) w in
  let d := desiredWeight w in
  let m := measuredWeight w' in
  fineControlMode w' =
    (fineControlMode w
     || F32.leb d (F32.ofZ 600)
     || (negb (F32.geb m d) && F32.gtb m (F32.sub d (F32.ofZ 500)))).
Proof.
  intros Hmode w'. subst w'.
  rewrite loop_dispatch, Hmode, controlDispensing_stages.
  destruct (sampleSensor_frame E w) as (m & lm & o1 & t1 & -> & _).
  match goal with |- context [exec (refreshReadout E) ?x] =>
    destruct (refreshReadout_frame E x) as (pu & o2 & t2 & ->) end.
  match goal with |- context [exec (driveMotor E) ?x] =>
    destruct (driveMotor_frame E x) as (a & lc & l1 & l2 & o3 & t3 & ->) end.
  match goal with |- context [exec (manageMotor E) ?x] =>
    destruct (manageMotor_spec E x) as (Hm & _ & Hf & _) end.
  cbv zeta. rewrite Hm, Hf. reflexivity.
Qed.

(** The pulsed drive, written out: one clock read; an active phase ends
    once [onTime] ms have passed since the last phase change (pin 9 low),
    an idle phase once the fixed 200 ms have passed (pin 9 high, pin 10
    low); the change is time-stamped with the clock value just read and
    logged.  Otherwise nothing but the clock read happens. *)
Lemma preciseDispensing_explicit (E : Env) (onTime : Z) (v : World) :
  let now := toULong (millisAt E (tick v)) in
  let elapsed := usub now (lastMotorChange v) in
  let called := set_tick (S (tick v)) v in
  exec (preciseDispensing E onTime) v =
  if isMotorActive v then
    if toULong onTime <=? elapsed then
      set_out (SerialPrintln [Txt "Motor deactivated (fine control)"]
               :: SerialPrint [Txt "[LOG] "]
               :: DigitalWrite MOTOR_PIN1 LOW :: out v)
        (set_lastMotorChange now
           (set_isMotorActive false (set_motorLine1 LOW called)))
    else called
  else
    if 200 <=? elapsed then
      set_out (SerialPrintln [Txt "Motor activated (fine control)"]
               :: SerialPrint [Txt "[LOG] "]
               :: DigitalWrite MOTOR_PIN2 LOW
               :: DigitalWrite MOTOR_PIN1 HIGH :: out v)
        (set_lastMotorChange now
           (set_isMotorActive true
              (set_motorLine2 LOW (set_motorLine1 HIGH called))))
    else called.
Proof. symbolic v; reflexivity. Qed.

(** C8. In a DISPENSING poll, let "fine" be the control mode at the drive
    decision (already on, or forced on by targetMass <= 600), and let the
    on-duration be 20 if currentMass >= targetMass - 200 and 80 otherwise.
    When fine, the poll makes exactly one pulsed-drive step with that
    on-duration: it reads the clock once; if the drive is active and at
    least the on-duration has passed since the last phase change, pin 9
    goes low, the drive becomes idle and the change is time-stamped; if
    the drive is idle and at least the fixed 200 ms have passed (whatever
    the on-duration), pin 9 goes high, pin 10 low, the drive becomes
    active and the change is time-stamped; otherwise pins, phase and
    time stamp stay as they are.  When not fine, no pulsed-drive step is
    made: the state goes to the completion test as sampling and display
    refresh left it. *)
Theorem pulsed_drive_widths (E : Env) (w : World) :
  currentMode w = DISPENSING ->
  let w1 := exec (refreshReadout E) (exec (sampleSensor E) w) in
  let d := desiredWeight w in
  let m := measuredWeight w1 in
  let fine := fineControlMode w || F32.leb d (F32.ofZ 600) in
  let onTime := if F32.geb m (F32.sub d (F32.ofZ 200)) then 20 else 80 in
  let now := toULong (millisAt E (tick w1)) in
  let elapsed := usub now (lastMotorChange w) in
  let called := set_tick (S (tick w1)) (set_fineControlMode true w1) in
  let switchedOff :=
    set_out (SerialPrintln [Txt "Motor deactivated (fine control)"]
             :: SerialPrint [Txt "[LOG] "]
             :: DigitalWrite MOTOR_PIN1 LOW :: out w1)
      (set_lastMotorChange now
         (set_isMotorActive false (set_motorLine1 LOW called))) in
  let switchedOn :=
    set_out (SerialPrintln [Txt "Motor activated (fine control)"]
             :: SerialPrint [Txt "[LOG] "]
             :: DigitalWrite MOTOR_PIN2 LOW
             :: DigitalWrite MOTOR_PIN1 HIGH :: out w1)
      (set_lastMotorChange now
         (set_isMotorActive true
            (set_motorLine2 LOW (set_motorLine1 HIGH called)))) in
  exec (loop E) w =
    exec (manageMotor E)
      (if fine then
         if isMotorActive w then
           if onTime <=? elapsed then switchedOff else called
         else
           if 200 <=? elapsed then switchedOn else called
       else w1).
Proof.
  intros Hmode w1. cbv zeta.
  rewrite loop_dispatch, Hmode, controlDispensing_stages. fold w1.
  assert (Hw1 : desiredWeight w1 = desiredWeight w /\
                fineControlMode w1 = fineControlMode w /\
                isMotorActive w1 = isMotorActive w /\
                lastMotorChange w1 = lastMotorChange w).
  { subst w1.
    destruct (sampleSensor_frame E w) as (m & lm & o1 & t1 & -> & _).
    match goal with |- context [exec (refreshReadout E) ?x] =>
      destruct (refreshReadout_frame E x) as (pu & o2 & t2 & ->) end.
    repeat split; reflexivity. }
  destruct Hw1 as (Hd & Hf & Ha & Hl).
  rewrite (driveMotor_selects E w1). cbv zeta.
  rewrite preciseDispensing_explicit. cbv zeta.
  change (isMotorActive (set_fineControlMode true w1))
    with (isMotorActive w1).
  change (lastMotorChange (set_fineControlMode true w1))
    with (lastMotorChange w1).
  change (tick (set_fineControlMode true w1)) with (tick w1).
  change (out (set_fineControlMode true w1)) with (out w1).
  rewrite Hd, Hf, Ha, Hl.
  destruct (F32.geb (measuredWeight w1)
              (F32.sub (desiredWeight w) (F32.ofZ 200)));
    reflexivity.
Qed.

(** C10. The full reset writes targetMass, currentMass, the buffer, the
    control mode, the motor outputs and the mode, and sends its commands
    to the display and the serial port; every other variable keeps its
    value: the rate-limit timestamps [previousUpdate] and
    [lastMeasurement], the taring statics [isTaring] and [tareBeginTime],
    and the pulsed-drive statics [isMotorActive] and [lastMotorChange]. *)
Theorem restartSystem_touches_only_shared_fields (w : World) :
  exec restartSystem w =
  {| isMotorOn := false;
     fineControlMode := false;
     currentMode := WEIGHT_INPUT;
     desiredWeight := F32.ofZ 0;
     measuredWeight := F32.ofZ 0;
     userInput := EmptyString;
     previousUpdate := previousUpdate w;
     motorStartTime := motorStartTime w;
     completionTime := completionTime w;
     isTaring := isTaring w;
     tareBeginTimeReady := tareBeginTimeReady w;
     tareBeginTime := tareBeginTime w;
     lastMeasurement := lastMeasurement w;
     motorPulseWidth := motorPulseWidth w;
     lastMotorChange := lastMotorChange w;
     isMotorActive := isMotorActive w;
     motorLine1 := LOW;
     motorLine2 := LOW;
     out := (resetEvents ++ out w)%list;
     tick := tick w |}.
Proof. destruct w; reflexivity. Qed.

(** ** Control-mode monotonicity *)

(** [run (S n)] is [run n] followed by one more iteration. *)
Lemma run_snoc (E : Env) (n : nat) (w : World) :
  run E (S n) w = exec (loop E) (run E n w).
Proof.
  revert w. induction n as [| n IH]; intros w; [reflexivity |].
  change (run E (S (S n)) w) with (run E (S n) (exec (loop E) w)).
  rewrite IH. reflexivity.
Qed.

(** One iteration that finds the fine mode on and leaves it off ended in
    the full reset. *)
Lemma loop_fine_drop (E : Env) (u : World) :
  fineControlMode u = true ->
  fineControlMode (exec (loop E) u) = false ->
  resetBetween u (exec (loop E) u).
Proof.
  intros Hon. rewrite loop_dispatch. destruct (currentMode u) eqn:Hmode.
  - rewrite processUserInput_handleKey.
    match goal with |- context [exec (handleKey E ?k) ?x] =>
      destruct (handleKey_frame E k x) as (d & m & b & o & ->) end.
    cbn. congruence.
  - destruct (performTaring_frame E u)
      as [Hreset | (it & rdy & tb & m & mo & l1 & l2 & o & t & ->)].
    + intros _. exact Hreset.
    + cbn. congruence.
  - rewrite controlDispensing_stages.
    destruct (sampleSensor_frame E u) as (m & lm & o1 & t1 & -> & _).
    match goal with |- context [exec (refreshReadout E) ?x] =>
      destruct (refreshReadout_frame E x) as (pu & o2 & t2 & ->) end.
    match goal with |- context [exec (driveMotor E) ?x] =>
      destruct (driveMotor_frame E x) as (a & lc & l1 & l2 & o3 & t3 & ->) end.
    match goal with |- context [exec (manageMotor E) ?x] =>
      destruct (manageMotor_spec E x) as (_ & _ & -> & _) end.
    cbn. rewrite Hon. discriminate.
  - destruct (showCompletion_frame E u) as [Hreset | ->].
    + intros _. exact Hreset.
    + cbn. congruence.
Qed.

(** C6. Along any execution, if [fineControlMode] is on at some point and
    off [n] iterations later, one of the iterations in between ended in
    the full reset: nothing else switches the fine mode off. *)
Theorem fine_control_sticky_until_reset (E : Env) (n : nat) (w : World) :
  fineControlMode w = true ->
  fineControlMode (run E n w) = false ->
  exists i, (i < n)%nat /\ resetBetween (run E i w) (run E (S i) w).
Proof.
  revert w. induction n as [| n IH]; intros w Hon Hoff.
  - cbn in Hoff. congruence.
  - destruct (fineControlMode (exec (loop E) w)) eqn:Hnext.
    + destruct (IH (exec (loop E) w) Hnext Hoff) as (i & Hi & Hreset).
      exists (S i). split; [lia | exact Hreset].
    + exists 0%nat. split; [lia |].
      apply (loop_fine_drop E w Hon Hnext).
Qed.

(** ** Taring *)

(** C2. In ZEROING with the handshake in progress: when more than 10 s
    have passed since [tareBeginTime] the poll ends in the full reset
    (mode WEIGHT_INPUT; targetMass, currentMass, buffer and fine mode
    cleared; motor off); when at most 10 s have passed and the load cell
    reports a fresh reading with the tare complete, the mode becomes
    DISPENSING. *)
Theorem taring_timeout_resets_else_completes (E : Env) (w : World) :
  currentMode w = ZEROING ->
  isTaring w = true ->
  tareBeginTimeReady w = true ->
  let w' := exec (loop E) w in
  let elapsed := usub (toULong (millisAt E (tick w))) (tareBeginTime w) in
  (10000 < elapsed ->
     resetBetween w w' /\
     currentMode w' = WEIGHT_INPUT /\
     desiredWeight w' = F32.ofZ 0 /\ measuredWeight w' = F32.ofZ 0 /\
     userInput w' = EmptyString /\ fineControlMode w' = false /\
     motorLine1 w' = LOW /\ motorLine2 w' = LOW /\ isMotorOn w' = false) /\
  (elapsed <= 10000 ->
     updateAt E (S (tick w)) = true ->
     tareStatusAt E (S (S (tick w))) = true ->
     currentMode w' = DISPENSING).
Proof.
  intros Hmode Htaring Hready. rewrite loop_dispatch, Hmode.
  destruct w; cbn in Htaring, Hready |- *; subst.
  unfold_prog; cbn. split.
  - intros Hlate. apply Z.ltb_lt in Hlate. rewrite Hlate.
    repeat (case_if; cbn); unfold_set;
      (split; [reset_here | repeat split; reflexivity]).
  - intros Hintime Hfresh Hdone.
    apply Z.ltb_ge in Hintime. rewrite Hintime. cbn.
    rewrite Hfresh. cbn. rewrite Hdone. cbn.
    repeat (case_if; cbn); reflexivity.
Qed.

(** With the in-progress flag already set, a poll sends no tare command
    and does not restart the clock; and the timeout path leaves the flag
    set. *)
Lemma performTaring_in_progress (E : Env) (w : World) :
  isTaring w = true ->
  tareBeginTimeReady w = true ->
  let w' := exec (performTaring E) w in
  tareCommands w' = tareCommands w /\
  tareBeginTime w' = tareBeginTime w /\
  (10000 < usub (toULong (millisAt E (tick w))) (tareBeginTime w) ->
   isTaring w' = true).
Proof.
  intros Htaring Hready.
  destruct w; cbn in Htaring, Hready |- *; subst.
  unfold_prog; cbn.
  destruct (Z.ltb_spec 10000
              (usub (toULong (millisAt E tick0)) tareBeginTime0));
    cbn; repeat (case_if; cbn); unfold_set;
    repeat split; intros; try reflexivity; lia.
Qed.

(** ** Key entry *)

Lemma length_snoc (s : string) (c : ascii) :
  String.length (s ++ String c EmptyString) = S (String.length s).
Proof.
  induction s as [| a s IH]; [reflexivity |].
  change (String.length (String a (s ++ String c EmptyString)) =
          S (String.length (String a s))).
  change (S (String.length (s ++ String c EmptyString)) = S (S (String.length s))).
  now rewrite IH.
Qed.

Lemma countDots_snoc (s : string) (c : ascii) :
  countDots (s ++ String c EmptyString) =
  (countDots s + (if Ascii.eqb c "." then 1 else 0))%nat.
Proof.
  induction s as [| a s IH]; cbn [countDots append].
  - lia.
  - rewrite IH. lia.
Qed.

Lemma nonempty_length (s : string) :
  s <> EmptyString -> (0 <? String.length s)%nat = true.
Proof. destruct s; [congruence | reflexivity]. Qed.

Section KeyEntry.
Variable E : Env.

(** What one key does to the buffer. *)
Lemma handleKey_userInput k w :
  let w' := exec (handleKey E k) w in
  if isEntryKey k && (String.length (userInput w) <? 6)%nat
  then userInput w' = userInput w ++ String k EmptyString
  else userInput w' = userInput w \/ (k = "*"%char /\ userInput w' = EmptyString).
Proof.
  destruct (Ascii.eqb_spec k NO_KEY) as [-> | Hno];
    [ change (isEntryKey NO_KEY) with false; destruct w; left; reflexivity |].
  destruct (Ascii.eqb_spec k "#") as [-> | Hhash];
    [ change (isEntryKey "#") with false; symbolic w; left; reflexivity |].
  destruct (Ascii.eqb_spec k "*") as [-> | Hstar];
    [ change (isEntryKey "*") with false; symbolic w;
      right; split; reflexivity |].
  apply Ascii.eqb_neq in Hno, Hhash, Hstar.
  unfold isEntryKey.
  destruct w; unfold_prog; cbn. rewrite Hno. cbn. rewrite Hhash, Hstar. cbn.
  repeat (case_if; cbn); unfold_set; try reflexivity; left; reflexivity.
Qed.

(** What one iteration does to the buffer. *)
Lemma loop_userInput w :
  let w' := exec (loop E) w in
  let k := keyAt E (tick w) in
  userInput w' = userInput w \/ userInput w' = EmptyString \/
  (currentMode w = WEIGHT_INPUT /\ isEntryKey k = true /\
   (String.length (userInput w) < 6)%nat /\
   userInput w' = userInput w ++ String k EmptyString).
Proof.
  cbv zeta. rewrite loop_dispatch. destruct (currentMode w) eqn:Hmode.
  - rewrite processUserInput_handleKey.
    pose proof (handleKey_userInput (keyAt E (tick w))
                  (set_tick (S (tick w)) w)) as Hkey.
    cbv zeta in Hkey.
    change (userInput (set_tick (S (tick w)) w)) with (userInput w) in Hkey.
    destruct (isEntryKey (keyAt E (tick w))) eqn:Hentry; cbn [andb] in Hkey.
    + revert Hkey.
      destruct (Nat.ltb_spec (String.length (userInput w)) 6); intros Hkey.
      * right; right. repeat split; assumption.
      * destruct Hkey as [H1 | [H1 _]]; [left; exact H1 |].
        rewrite H1 in Hentry. discriminate.
    + destruct Hkey as [H1 | [_ H1]]; [left | right; left]; exact H1.
  - destruct (performTaring_frame E w)
      as [(v & evs & -> & _)
         | (it & rdy & tb & m & mo & l1 & l2 & o & t & ->)];
      [right; left; destruct v; reflexivity | left; reflexivity].
  - rewrite controlDispensing_stages.
    destruct (sampleSensor_frame E w) as (m & lm & o1 & t1 & -> & _).
    match goal with |- context [exec (refreshReadout E) ?x] =>
      destruct (refreshReadout_frame E x) as (pu & o2 & t2 & ->) end.
    match goal with |- context [exec (driveMotor E) ?x] =>
      destruct (driveMotor_frame E x)
        as (a & lc & l1 & l2 & o3 & t3 & ->) end.
    match goal with |- context [exec (manageMotor E) ?x] =>
      destruct (manageMotor_frame E x)
        as (f & mo & l1' & l2' & md & ct & o4 & t4 & ->) end.
    left; reflexivity.
  - destruct (showCompletion_frame E w) as [(v & evs & -> & _) | ->];
      [right; left; destruct v; reflexivity | left; reflexivity].
Qed.

End KeyEntry.

Lemma keymap_has_no_dot (k : ascii) :
  k = NO_KEY \/ In k keypadKeys -> Ascii.eqb k "." = false.
Proof.
  cbn. intros [H | H]; [subst; reflexivity |].
  repeat (destruct H as [H | H]; [subst; reflexivity |]). contradiction.
Qed.

Lemma run_length_bounded (E : Env) (n : nat) (w : World) :
  (String.length (userInput w) <= 6)%nat ->
  (String.length (userInput (run E n w)) <= 6)%nat.
Proof.
  revert w. induction n as [| n IH]; intros w Hlen; [exact Hlen |].
  cbn [run]. apply IH.
  destruct (loop_userInput E w) as [-> | [-> | (_ & _ & Hlt & ->)]].
  - exact Hlen.
  - cbv; lia.
  - rewrite length_snoc. lia.
Qed.

Lemma run_no_dots (E : Env) (n : nat) (w : World) :
  (forall i, keyAt E i = NO_KEY \/ In (keyAt E i) keypadKeys) ->
  countDots (userInput w) = 0%nat ->
  countDots (userInput (run E n w)) = 0%nat.
Proof.
  intros Hkeys. revert w. induction n as [| n IH]; intros w Hdots;
    [exact Hdots |].
  cbn [run]. apply IH.
  destruct (loop_userInput E w) as [-> | [-> | (_ & _ & _ & ->)]].
  - exact Hdots.
  - reflexivity.
  - rewrite countDots_snoc, Hdots, (keymap_has_no_dot _ (Hkeys (tick w))).
    reflexivity.
Qed.

(** C3 (as the sketch has it).  In WEIGHT_INPUT, [#] with a non-empty
    buffer that parses to a value > 0 stores the parsed value in
    targetMass, moves to ZEROING and shows "Calibrating..."; the buffer
    keeps its contents. *)
Theorem finalize_sets_target_keeps_buffer (E : Env) (w : World) :
  currentMode w = WEIGHT_INPUT ->
  keyAt E (tick w) = "#"%char ->
  userInput w <> EmptyString ->
  F32.gtb (toFloat E (userInput w)) (F32.ofZ 0) = true ->
  let w' := exec (loop E) w in
  desiredWeight w' = toFloat E (userInput w) /\
  userInput w' = userInput w /\
  currentMode w' = ZEROING /\
  shows "Calibrating..." w'.
Proof.
  intros Hmode Hkey Hbuf Hpos.
  rewrite loop_dispatch, Hmode, processUserInput_handleKey, Hkey.
  destruct w; cbn in Hbuf, Hpos |- *.
  unfold_prog; cbn.
  rewrite (nonempty_length _ Hbuf). cbn. rewrite Hpos. cbn. unfold_set.
  repeat split. eexists; reflexivity.
Qed.

(** One poll of WEIGHT_INPUT from any state.  The mode changes only on
    [#] with a non-empty buffer that parses to a value > 0, and then to
    ZEROING; in every other case the mode stays WEIGHT_INPUT.  The
    assignment of line 124 precedes the test of line 126: after [#] with
    a non-empty buffer [desiredWeight] holds the parsed value whatever
    the test says.  With another key, or an empty buffer,
    [desiredWeight] keeps its value. *)
Lemma finalize_assigns_before_validating (E : Env) (w : World) :
  currentMode w = WEIGHT_INPUT ->
  let w' := exec (loop E) w in
  let key := keyAt E (tick w) in
  let parsed := toFloat E (userInput w) in
  (key = "#"%char /\ userInput w <> EmptyString ->
     desiredWeight w' = parsed /\
     (F32.gtb parsed (F32.ofZ 0) = true -> currentMode w' = ZEROING) /\
     (F32.gtb parsed (F32.ofZ 0) = false -> currentMode w' = WEIGHT_INPUT)) /\
  (key <> "#"%char \/ userInput w = EmptyString ->
     desiredWeight w' = desiredWeight w /\ currentMode w' = WEIGHT_INPUT).
Proof.
  intros Hmode. cbv zeta.
  rewrite loop_dispatch, Hmode, processUserInput_handleKey.
  destruct w; cbn in Hmode |- *; subst. split.
  - intros (-> & Hbuf). unfold_prog; cbn.
    rewrite (nonempty_length _ Hbuf). cbn.
    destruct (F32.gtb (toFloat E userInput0) (F32.ofZ 0)); cbn;
      repeat split; intros; reflexivity || discriminate.
  - intros Hother. unfold_prog; cbn.
    destruct (Ascii.eqb_spec (keyAt E tick0) NO_KEY); cbn;
      [split; reflexivity |].
    destruct (Ascii.eqb_spec (keyAt E tick0) "#"); cbn.
    + destruct Hother as [Hk | ->]; [contradiction |]. split; reflexivity.
    + repeat (case_if; cbn); split; reflexivity.
Qed.

(** The buffer from any state and for any keys.  It never grows beyond
    6 characters: a digit or point arriving at length 6 is not appended.
    Line 141 does not count decimal points: a point arriving at a length
    below 6 would be appended.  The buffer is free of points as long as
    the keys come from [keypadButtons], which has no point. *)
Lemma buffer_length_bounded_points_unchecked
    (E : Env) (n : nat) (w : World) :
  (String.length (userInput w) <= 6)%nat ->
  let k := keyAt E (tick w) in
  let w' := exec (loop E) w in
  (String.length (userInput (run E n w)) <= 6)%nat /\
  (currentMode w = WEIGHT_INPUT -> isEntryKey k = true ->
   String.length (userInput w) = 6%nat -> userInput w' = userInput w) /\
  (currentMode w = WEIGHT_INPUT -> k = "."%char ->
   (String.length (userInput w) < 6)%nat ->
   userInput w' = userInput w ++ ".") /\
  ((forall i, keyAt E i = NO_KEY \/ In (keyAt E i) keypadKeys) ->
   countDots (userInput w) = 0%nat ->
   countDots (userInput (run E n w)) = 0%nat).
Proof.
  intros Hlen k w'. subst k w'. repeat split.
  - apply run_length_bounded, Hlen.
  - intros Hmode Hentry Hfull.
    rewrite loop_dispatch, Hmode, processUserInput_handleKey.
    pose proof (handleKey_userInput E (keyAt E (tick w))
                  (set_tick (S (tick w)) w)) as Hkey.
    cbv zeta in Hkey.
    change (userInput (set_tick (S (tick w)) w)) with (userInput w) in Hkey.
    rewrite Hentry, Hfull in Hkey. cbn [andb] in Hkey.
    change (6 <? 6)%nat with false in Hkey.
    destruct Hkey as [H1 | [H1 _]]; [exact H1 |].
    rewrite H1 in Hentry. discriminate.
  - intros Hmode Hpoint Hroom.
    rewrite loop_dispatch, Hmode, processUserInput_handleKey, Hpoint.
    pose proof (handleKey_userInput E "." (set_tick (S (tick w)) w)) as Hkey.
    cbv zeta in Hkey.
    change (userInput (set_tick (S (tick w)) w)) with (userInput w) in Hkey.
    change (isEntryKey ".") with true in Hkey.
    apply Nat.ltb_lt in Hroom. rewrite Hroom in Hkey. exact Hkey.
  - apply run_no_dots.
Qed.

(** ** Reachable states *)

Section Reachable.
Variable E : Env.

Lemma boot_state w :
  boot E = Some w ->
  currentMode w = WEIGHT_INPUT /\ desiredWeight w = F32.ofZ 0 /\
  userInput w = EmptyString /\ fineControlMode w = false /\
  isTaring w = false.
Proof.
  unfold boot, booted, setup, powerOn. unfold_prog. cbn.
  repeat (case_if; cbn); intros H; inversion H; subst; cbn;
    repeat split; reflexivity.
Qed.

Lemma performTaring_ready w :
  tareBeginTimeReady (exec (performTaring E) w) = true.
Proof. symbolic w; reflexivity. Qed.

Lemma showCompletion_taring w :
  isTaring (exec (showCompletion E) w) = isTaring w /\
  tareBeginTimeReady (exec (showCompletion E) w) = tareBeginTimeReady w.
Proof. symbolic w; split; reflexivity. Qed.

(** The in-progress flag is only ever set inside [performTaring], after
    the initialiser of [tareBeginTime] has run. *)
Lemma reachable_taring_ready w :
  reachable E w -> isTaring w = true -> tareBeginTimeReady w = true.
Proof.
  induction 1 as [w Hboot | w Hreach IH].
  - destruct (boot_state w Hboot) as (_ & _ & _ & _ & Hoff). congruence.
  - rewrite loop_dispatch. destruct (currentMode w).
    + rewrite processUserInput_handleKey.
      match goal with |- context [exec (handleKey E ?k) ?x] =>
        destruct (handleKey_frame E k x) as (d & m & b & o & ->) end.
      exact IH.
    + intros _. apply performTaring_ready.
    + rewrite controlDispensing_stages.
      destruct (sampleSensor_frame E w) as (m & lm & o1 & t1 & -> & _).
      match goal with |- context [exec (refreshReadout E) ?x] =>
        destruct (refreshReadout_frame E x) as (pu & o2 & t2 & ->) end.
      match goal with |- context [exec (driveMotor E) ?x] =>
        destruct (driveMotor_frame E x)
          as (a & lc & l1 & l2 & o3 & t3 & ->) end.
      match goal with |- context [exec (manageMotor E) ?x] =>
        destruct (manageMotor_frame E x)
          as (f & mo & l1' & l2' & md & ct & o4 & t4 & ->) end.
      exact IH.
    + destruct (showCompletion_taring w) as (-> & ->). exact IH.
Qed.

Lemma handleKey_idle k w :
  let w' := exec (handleKey E k) w in
  currentMode w = WEIGHT_INPUT -> currentMode w' = WEIGHT_INPUT ->
  desiredWeight w' = desiredWeight w \/
  (desiredWeight w' = toFloat E (userInput w) /\
   F32.gtb (toFloat E (userInput w)) (F32.ofZ 0) = false).
Proof.
  symbolic w; cbn; intros; subst; try discriminate;
    first [left; reflexivity | right; split; reflexivity].
Qed.

Lemma performTaring_idle w :
  let w' := exec (performTaring E) w in
  currentMode w = ZEROING -> currentMode w' = WEIGHT_INPUT ->
  desiredWeight w' = F32.ofZ 0.
Proof. symbolic w; cbn; intros; subst; discriminate || reflexivity. Qed.

Lemma showCompletion_idle w :
  let w' := exec (showCompletion E) w in
  currentMode w = FINISHED -> currentMode w' = WEIGHT_INPUT ->
  desiredWeight w' = F32.ofZ 0.
Proof. symbolic w; cbn; intros; subst; discriminate || reflexivity. Qed.

Lemma controlDispensing_busy w :
  currentMode w = DISPENSING ->
  currentMode (exec (controlDispensing E) w) <> WEIGHT_INPUT.
Proof.
  intros Hmode. rewrite controlDispensing_stages.
  destruct (sampleSensor_frame E w) as (m & lm & o1 & t1 & -> & _).
  match goal with |- context [exec (refreshReadout E) ?x] =>
    destruct (refreshReadout_frame E x) as (pu & o2 & t2 & ->) end.
  match goal with |- context [exec (driveMotor E) ?x] =>
    destruct (driveMotor_frame E x) as (a & lc & l1 & l2 & o3 & t3 & ->) end.
  match goal with |- context [exec (manageMotor E) ?x] =>
    destruct (manageMotor_spec E x) as (_ & _ & _ & Hfin & Hstay);
    destruct (F32.geb (measuredWeight x) (desiredWeight x)) end.
  - destruct (Hfin eq_refl) as (-> & _). discriminate.
  - rewrite (Hstay eq_refl). cbn. rewrite Hmode. discriminate.
Qed.

(** In WEIGHT_INPUT the stored target is never positive: it is what the
    reset or a rejected entry left there. *)
Lemma reachable_idle_target w :
  reachable E w -> currentMode w = WEIGHT_INPUT ->
  idleTarget E (desiredWeight w).
Proof.
  induction 1 as [w Hboot | w Hreach IH].
  - destruct (boot_state w Hboot) as (_ & -> & _). intros _. left; reflexivity.
  - rewrite loop_dispatch. destruct (currentMode w) eqn:Hmode; intros Hidle.
    + rewrite processUserInput_handleKey in *.
      destruct (handleKey_idle (keyAt E (tick w)) (set_tick (S (tick w)) w)
                  Hmode Hidle) as [-> | (-> & Hrej)].
      * apply IH. reflexivity.
      * right. eexists. split; [reflexivity | exact Hrej].
    + left. apply (performTaring_idle w Hmode Hidle).
    + destruct (controlDispensing_busy w Hmode Hidle).
    + left. apply (showCompletion_idle w Hmode Hidle).
Qed.

End Reachable.

(** ** Runs on the bench *)

(** C3, as stated, fails: after 5 and [#] the mode is ZEROING and the
    buffer still holds "5". *)
Lemma finalize_leaves_buffer_filled :
  let w1 := run entryBench 1 (booted entryBench) in
  let w2 := exec (loop entryBench) w1 in
  boot entryBench = Some (booted entryBench) /\
  currentMode w1 = WEIGHT_INPUT /\
  keyAt entryBench (tick w1) = "#"%char /\
  userInput w1 = "5" /\
  F32.gtb (toFloat entryBench (userInput w1)) (F32.ofZ 0) = true /\
  currentMode w2 = ZEROING /\
  userInput w2 = "5" /\ userInput w2 <> EmptyString.
Proof. vm_compute. repeat split. discriminate. Qed.

(** C5 does not hold of the sketch.  After a tare timeout the static
    [isTaring] is still set, so the first poll of the next ZEROING
    episode sends no tare command, keeps the start time of the previous
    episode (1000 ms), and times out at once: the second entry was
    finalised between t = 11001 ms and t = 12001 ms, yet the poll at
    12001 ms already resets to WEIGHT_INPUT. *)
Theorem second_zeroing_episode_reuses_stale_handshake :
  let w2 := run retryBench 2 (booted retryBench) in  (* 5, # *)
  let w3 := exec (loop retryBench) w2 in            (* tare command *)
  let w4 := exec (loop retryBench) w3 in            (* timeout, reset *)
  let w6 := run retryBench 2 w4 in                  (* 5, # again *)
  let w7 := exec (loop retryBench) w6 in            (* first poll *)
  boot retryBench = Some (booted retryBench) /\
  (currentMode w2 = ZEROING /\ tareCommands w2 = 0%nat) /\
  (tareCommands w3 = 1%nat /\ tareBeginTime w3 = 1000) /\
  (currentMode w4 = WEIGHT_INPUT /\ isTaring w4 = true) /\
  (currentMode w6 = ZEROING /\ isTaring w6 = true) /\
  (tareCommands w7 = 1%nat /\ tareBeginTime w7 = 1000 /\
   millisAt retryBench (tick w6) = 12001 /\
   currentMode w7 = WEIGHT_INPUT).
Proof. vm_compute. repeat split. Qed.

(** *** The theorems at work on the bench *)

Lemma dispensing_finishes_witness :
  let w := run cycleBench 7 (booted cycleBench) in
  currentMode w = DISPENSING /\
  currentMode (exec (loop cycleBench) w) = FINISHED.
Proof.
  cbv zeta.
  assert (H : currentMode (run cycleBench 7 (booted cycleBench)) = DISPENSING)
    by (vm_compute; reflexivity).
  split; [exact H |].
  destruct (dispensing_finishes_iff_target_reached cycleBench _ H)
    as (_ & (_ & Hfin) & _).
  apply Hfin. vm_compute. reflexivity.
Defined.

Lemma taring_witness :
  let late := run retryBench 3 (booted retryBench) in
  let intime := run cycleBench 5 (booted cycleBench) in
  currentMode (exec (loop retryBench) late) = WEIGHT_INPUT /\
  currentMode (exec (loop cycleBench) intime) = DISPENSING.
Proof.
  cbv zeta. split.
  - refine (proj1 (proj2 (proj1
      (taring_timeout_resets_else_completes retryBench
         (run retryBench 3 (booted retryBench)) _ _ _) _)));
      vm_compute; reflexivity.
  - refine (proj2
      (taring_timeout_resets_else_completes cycleBench
         (run cycleBench 5 (booted cycleBench)) _ _ _) _ _ _);
      vm_compute; try reflexivity; discriminate.
Defined.

Lemma finalize_witness :
  let w := run entryBench 1 (booted entryBench) in
  desiredWeight (exec (loop entryBench) w) = F32.ofZ 5 /\
  userInput (exec (loop entryBench) w) = "5".
Proof.
  cbv zeta.
  destruct (finalize_sets_target_keeps_buffer entryBench
              (run entryBench 1 (booted entryBench)))
    as (Hd & Hb & _); try (vm_compute; reflexivity).
  - vm_compute. discriminate.
  - split; [rewrite Hd | rewrite Hb]; vm_compute; reflexivity.
Defined.

Lemma fine_control_sticky_witness :
  let w := run cycleBench 7 (booted cycleBench) in
  exists i, (i < 2)%nat /\
    resetBetween (run cycleBench i w) (run cycleBench (S i) w).
Proof.
  cbv zeta.
  apply (fine_control_sticky_until_reset cycleBench 2
           (run cycleBench 7 (booted cycleBench)));
    vm_compute; reflexivity.
Defined.

Lemma fine_control_enabled_witness :
  let w := run cycleBench 6 (booted cycleBench) in
  fineControlMode w = false /\
  fineControlMode (exec (loop cycleBench) w) = true.
Proof.
  cbv zeta. split; [vm_compute; reflexivity |].
  rewrite (fine_control_enabled_exactly cycleBench
             (run cycleBench 6 (booted cycleBench)));
    vm_compute; reflexivity.
Defined.

Lemma pulsed_drive_witness :
  let w := run cycleBench 6 (booted cycleBench) in
  let w' := exec (loop cycleBench) w in
  isMotorActive w = false /\
  isMotorActive w' = true /\ lastMotorChange w' = 1302 /\
  motorLine1 w' = HIGH /\ motorLine2 w' = LOW.
Proof.
  cbv zeta. split; [vm_compute; reflexivity |].
  rewrite (pulsed_drive_widths cycleBench
             (run cycleBench 6 (booted cycleBench)));
    [| vm_compute; reflexivity].
  vm_compute. repeat split.
Defined.

(** ** Further properties of the handlers *)

(** *** One step of each handler *)

Section Steps.
Variable E : Env.

Lemma handleKey_mode k w :
  currentMode w = WEIGHT_INPUT ->
  let w' := exec (handleKey E k) w in
  currentMode w' = WEIGHT_INPUT \/
  (currentMode w' = ZEROING /\
   F32.gtb (desiredWeight w') (F32.ofZ 0) = true).
Proof.
  destruct w; cbn [currentMode]; intros ->.
  unfold_prog; cbn; repeat (case_if; cbn); unfold_set;
    first [left; reflexivity | right; split; [reflexivity | assumption]].
Qed.

Lemma performTaring_step w :
  let w' := exec (performTaring E) w in
  resetBetween w w' \/
  (exists it rdy tb o t,
     w' = set_isTaring it (set_tareBeginTimeReady rdy (set_tareBeginTime tb
            (set_out o (set_tick t w))))) \/
  (currentMode w' = DISPENSING /\ isTaring w' = false /\
   isMotorOn w' = true /\
   (if fineControlMode w
    then motorLine1 w' = motorLine1 w /\ motorLine2 w' = motorLine2 w
    else motorLine1 w' = HIGH /\ motorLine2 w' = LOW) /\
   exists it rdy tb m mo l1 l2 o t,
     w' = set_isTaring it (set_tareBeginTimeReady rdy (set_tareBeginTime tb
            (set_currentMode m (set_isMotorOn mo (set_motorLine1 l1
               (set_motorLine2 l2 (set_out o (set_tick t w))))))))).
Proof.
  symbolic w;
    first [ left; reset_here
          | right; left; do 5 eexists; reflexivity
          | right; right; repeat split; do 9 eexists; reflexivity ].
Qed.

Lemma sampleSensor_measured w :
  let w' := exec (sampleSensor E) w in
  measuredWeight w' = measuredWeight w \/
  (updateAt E (S (tick w)) = true /\
   measuredWeight w' =
     (if F32.gtb (dataAt E (S (S (tick w)))) (F32.ofZ 0)
      then dataAt E (S (S (S (tick w))))
      else F32.neg (dataAt E (S (S (S (tick w))))))).
Proof.
  symbolic w; first [left; reflexivity | right; split; reflexivity].
Qed.

Lemma driveMotor_motor w :
  let w' := exec (driveMotor E) w in
  (motorLine2 w = LOW -> motorLine2 w' = LOW) /\
  (fineControlMode w' = false -> motorLine1 w' = motorLine1 w).
Proof.
  symbolic w; cbn; split; intros; subst; try reflexivity; discriminate.
Qed.

Lemma manageMotor_motor w :
  let w' := exec (manageMotor E) w in
  (currentMode w' = FINISHED /\ motorLine1 w' = LOW /\ motorLine2 w' = LOW /\
   isMotorOn w' = false) \/
  (currentMode w' = currentMode w /\ motorLine1 w' = motorLine1 w /\
   motorLine2 w' = motorLine2 w /\ isMotorOn w' = isMotorOn w).
Proof.
  symbolic w;
    first [ solve [left; repeat split; reflexivity]
          | solve [right; repeat split; reflexivity] ].
Qed.

(** One poll of DISPENSING, seen from outside. *)
Lemma controlDispensing_step w :
  let w' := exec (controlDispensing E) w in
  userInput w' = userInput w /\ desiredWeight w' = desiredWeight w /\
  (measuredWeight w' = measuredWeight w \/
   (updateAt E (S (tick w)) = true /\
    measuredWeight w' =
      (if F32.gtb (dataAt E (S (S (tick w)))) (F32.ofZ 0)
       then dataAt E (S (S (S (tick w))))
       else F32.neg (dataAt E (S (S (S (tick w)))))))) /\
  ((currentMode w' = FINISHED /\ motorLine1 w' = LOW /\ motorLine2 w' = LOW /\
    isMotorOn w' = false) \/
   (currentMode w' = currentMode w /\ isMotorOn w' = isMotorOn w /\
    (motorLine2 w = LOW -> motorLine2 w' = LOW) /\
    (fineControlMode w' = false -> motorLine1 w' = motorLine1 w))).
Proof.
  cbv zeta. rewrite controlDispensing_stages.
  pose proof (sampleSensor_measured w) as Hsample. cbv zeta in Hsample.
  destruct (sampleSensor_frame E w) as (m & lm & o1 & t1 & Hs & _).
  rewrite Hs in *. clear Hs.
  match goal with |- context [exec (refreshReadout E) ?x] =>
    destruct (refreshReadout_frame E x) as (pu & o2 & t2 & ->) end.
  match goal with |- context [exec (driveMotor E) ?x] =>
    pose proof (driveMotor_motor x) as Hdrive; cbv zeta in Hdrive;
    destruct (driveMotor_frame E x) as (a & lc & l1 & l2 & o3 & t3 & Hd) end.
  rewrite Hd in *. clear Hd.
  match goal with |- context [exec (manageMotor E) ?x] =>
    pose proof (manageMotor_motor x) as Hmanage; cbv zeta in Hmanage;
    destruct (manageMotor_spec E x) as (Hm & _ & Hf & _);
    destruct (manageMotor_frame E x)
      as (f & mo & l1' & l2' & md & ct & o4 & t4 & Hmg) end.
  rewrite Hmg in *. clear Hmg. cbn in *.
  repeat split; try exact Hsample.
  destruct Hmanage as [Hfin | (Hmd & Hl1 & Hl2 & Hmo)]; [left; exact Hfin |].
  right. destruct Hdrive as (Hd2 & Hd1). repeat split; try assumption.
  - intros Hlow. rewrite Hl2. apply Hd2, Hlow.
  - intros Hcoarse. rewrite Hl1. apply Hd1.
    rewrite Hf in Hcoarse. apply orb_false_iff in Hcoarse. apply Hcoarse.
Qed.

Lemma reset_state u w :
  resetBetween u w ->
  currentMode w = WEIGHT_INPUT /\ desiredWeight w = F32.ofZ 0 /\
  measuredWeight w = F32.ofZ 0 /\ userInput w = EmptyString /\
  fineControlMode w = false /\ motorLine1 w = LOW /\ motorLine2 w = LOW /\
  isMotorOn w = false.
Proof.
  intros (v & evs & -> & _). destruct v. cbn. repeat split.
Qed.

End Steps.

(** *** Invariants of the polling loop *)

Lemma run_invariant (E : Env) (P : World -> Prop) :
  (forall w, P w -> P (exec (loop E) w)) ->
  forall n w, P w -> P (run E n w).
Proof.
  intros Hstep. induction n as [| n IH]; intros w Hw; [exact Hw |].
  cbn [run]. apply IH, Hstep, Hw.
Qed.

Lemma boot_motor (E : Env) (w : World) :
  boot E = Some w ->
  motorLine1 w = LOW /\ motorLine2 w = LOW /\ isMotorOn w = false /\
  measuredWeight w = F32.ofZ 0.
Proof.
  unfold boot, booted, setup, powerOn. unfold_prog. cbn.
  repeat (case_if; cbn); intros H; inversion H; subst; cbn;
    repeat split; reflexivity.
Qed.

Lemma loop_motorConsistent (E : Env) (w : World) :
  motorConsistent w -> motorConsistent (exec (loop E) w).
Proof.
  unfold motorConsistent. intros (Hl2 & Hmode).
  rewrite loop_dispatch. revert Hmode.
  destruct (currentMode w) eqn:Hm; intros Hmode.
  - rewrite processUserInput_handleKey.
    pose proof (handleKey_mode E (keyAt E (tick w)) (set_tick (S (tick w)) w)
                  Hm) as Hnext. cbv zeta in Hnext.
    match goal with |- context [exec (handleKey E ?k) ?x] =>
      destruct (handleKey_frame E k x) as (d & m & b & o & Hk) end.
    rewrite Hk in *. cbn in *.
    destruct Hnext as [-> | (-> & _)].
    + split; assumption.
    + split; assumption.
  - pose proof (performTaring_step E w) as Hstep. cbv zeta in Hstep.
    destruct Hstep as [Hreset | [(it & rdy & tb & o & t & ->) | Hgo]].
    + destruct (reset_state _ _ Hreset)
        as (-> & _ & _ & _ & Hf & H1 & H2 & Hon).
      cbn. repeat split; assumption.
    + cbn. rewrite Hm. split; assumption.
    + destruct Hgo as (-> & _ & Hon & Hlines & _).
      destruct Hmode as (H1 & H0 & Hf). rewrite Hf in Hlines.
      destruct Hlines as (Hh & Hl). cbn.
      split; [exact Hl | split; [exact Hon | intros _; exact Hh]].
  - pose proof (controlDispensing_step E w) as Hstep. cbv zeta in Hstep.
    destruct Hstep as (_ & _ & _ & [(-> & H1 & H2 & Hon) | Hstay]).
    + cbn. repeat split; assumption.
    + destruct Hstay as (-> & Hon & H2 & H1). rewrite Hm.
      destruct Hmode as (Hrun & Hcoarse).
      split; [apply H2, Hl2 | split; [congruence |]].
      intros Hc. rewrite (H1 Hc). apply Hcoarse.
      (* the fine mode never goes from on to off within a poll *)
      destruct (fineControlMode w) eqn:Hfw; [| reflexivity].
      exfalso.
      pose proof (loop_fine_drop E w Hfw) as Hdrop.
      rewrite loop_dispatch, Hm in Hdrop.
      destruct (reset_state _ _ (Hdrop Hc)) as (Hin & _).
      destruct (controlDispensing_busy E w Hm Hin).
  - destruct (showCompletion_frame E w) as [Hreset | ->].
    + destruct (reset_state _ _ Hreset)
        as (-> & _ & _ & _ & Hf & H1 & H2 & Hon).
      cbn. repeat split; assumption.
    + cbn. rewrite Hm. split; assumption.
Qed.

Lemma abs_not_negative (x : float32) :
  F32.gtb (F32.ofZ 0) (F32.abs x) = false.
Proof. destruct x as [s | s | | s m e]; try destruct s; reflexivity. Qed.

Lemma loop_measured_not_negative (E : Env) (w : World) :
  (forall i, updateAt E i = true -> dataAt E (S (S i)) = dataAt E (S i)) ->
  F32.gtb (F32.ofZ 0) (measuredWeight w) = false ->
  F32.gtb (F32.ofZ 0) (measuredWeight (exec (loop E) w)) = false.
Proof.
  intros Hsame Hw. rewrite loop_dispatch. destruct (currentMode w) eqn:Hm.
  - rewrite processUserInput_handleKey.
    match goal with |- context [exec (handleKey E ?k) ?x] =>
      destruct (handleKey_frame E k x) as (d & m & b & o & ->) end.
    exact Hw.
  - destruct (performTaring_frame E w)
      as [Hreset | (it & rdy & tb & m & mo & l1 & l2 & o & t & ->)].
    + destruct (reset_state _ _ Hreset) as (_ & _ & -> & _). reflexivity.
    + exact Hw.
  - destruct (controlDispensing_step E w) as (_ & _ & [-> | (Hup & ->)] & _).
    + exact Hw.
    + rewrite (Hsame _ Hup). apply abs_not_negative.
  - destruct (showCompletion_frame E w) as [Hreset | ->].
    + destruct (reset_state _ _ Hreset) as (_ & _ & -> & _). reflexivity.
    + exact Hw.
Qed.

Lemma loop_target_positive (E : Env) (w : World) :
  (currentMode w <> WEIGHT_INPUT ->
   F32.gtb (desiredWeight w) (F32.ofZ 0) = true) ->
  currentMode (exec (loop E) w) <> WEIGHT_INPUT ->
  F32.gtb (desiredWeight (exec (loop E) w)) (F32.ofZ 0) = true.
Proof.
  intros Hw. rewrite loop_dispatch. destruct (currentMode w) eqn:Hm.
  - rewrite processUserInput_handleKey.
    destruct (handleKey_mode E (keyAt E (tick w)) (set_tick (S (tick w)) w) Hm)
      as [Hidle | (_ & Hpos)]; [congruence | intros _; exact Hpos].
  - destruct (performTaring_frame E w)
      as [Hreset | (it & rdy & tb & m & mo & l1 & l2 & o & t & ->)].
    + destruct (reset_state _ _ Hreset) as (Hidle & _). congruence.
    + intros _. apply Hw. discriminate.
  - destruct (controlDispensing_step E w) as (_ & -> & _).
    intros _. apply Hw. discriminate.
  - destruct (showCompletion_frame E w) as [Hreset | ->].
    + destruct (reset_state _ _ Hreset) as (Hidle & _). congruence.
    + intros _. apply Hw. discriminate.
Qed.

Lemma entryOnly_snoc (s : string) (k : ascii) :
  entryOnly s = true -> isEntryKey k = true ->
  entryOnly (s ++ String k EmptyString) = true.
Proof.
  intros Hs Hk. induction s as [| c s IH]; cbn [append entryOnly] in *.
  - rewrite Hk. reflexivity.
  - apply andb_true_iff in Hs. destruct Hs as (Hc & Hs).
    rewrite Hc, (IH Hs). reflexivity.
Qed.

Lemma loop_entryOnly (E : Env) (w : World) :
  entryOnly (userInput w) = true ->
  entryOnly (userInput (exec (loop E) w)) = true.
Proof.
  intros Hw.
  destruct (loop_userInput E w) as [-> | [-> | (_ & Hk & _ & ->)]].
  - exact Hw.
  - reflexivity.
  - apply entryOnly_snoc; assumption.
Qed.

(** *** Entries from the keypad *)

(** Rounding a non-negative mantissa never yields a negative number, a
    negative zero or a NaN. *)
Lemma shr_1_nonneg (mrs : shr_record) :
  0 <= shr_m mrs -> 0 <= shr_m (shr_1 mrs).
Proof.
  destruct mrs as [m r s]. destruct m as [| p | p]; cbn; [lia | | lia].
  intros _. destruct p; cbn; lia.
Qed.

Lemma iter_shr_1_nonneg (p : positive) (mrs : shr_record) :
  0 <= shr_m mrs -> 0 <= shr_m (iter_pos shr_1 p mrs).
Proof.
  revert mrs. induction p as [p IH | p IH |]; intros mrs Hm; cbn [iter_pos].
  - apply IH, IH, shr_1_nonneg, Hm.
  - apply IH, IH, Hm.
  - apply shr_1_nonneg, Hm.
Qed.

Lemma shr_fexp_nonneg (m e : Z) (l : location) :
  0 <= m -> 0 <= shr_m (fst (shr_fexp F32.prec F32.emax m e l)).
Proof.
  intros Hm. unfold shr_fexp, shr.
  assert (Hrec : 0 <= shr_m (shr_record_of_loc m l))
    by (destruct l as [| []]; exact Hm).
  destruct (fexp F32.prec F32.emax (Zdigits2 m + e) - e); cbn [fst];
    [exact Hrec | apply iter_shr_1_nonneg, Hrec | exact Hrec].
Qed.

Lemma round_nearest_even_nonneg (m : Z) (l : location) :
  0 <= m -> 0 <= round_nearest_even m l.
Proof.
  intros Hm. destruct l as [| []]; cbn [round_nearest_even];
    [| destruct (Z.even m) | |]; lia.
Qed.

Lemma binary_round_aux_notNegative (m e : Z) (l : location) :
  0 <= m ->
  notNegative (binary_round_aux F32.prec F32.emax false m e l) = true.
Proof.
  intros Hm. unfold binary_round_aux.
  pose proof (shr_fexp_nonneg m e l Hm) as H1.
  destruct (shr_fexp F32.prec F32.emax m e l) as [mrs' e'].
  cbn [fst] in H1.
  pose proof (shr_fexp_nonneg _ e' loc_Exact
                (round_nearest_even_nonneg _ (loc_of_shr_record mrs') H1))
    as H2.
  destruct (shr_fexp F32.prec F32.emax
              (round_nearest_even (shr_m mrs') (loc_of_shr_record mrs'))
              e' loc_Exact) as [mrs'' e''].
  cbn [fst] in H2.
  destruct (shr_m mrs'') as [| q | q]; [reflexivity | | lia].
  destruct (e'' <=? F32.emax - F32.prec); reflexivity.
Qed.

Lemma ofZ_notNegative (n : Z) : 0 <= n -> notNegative (F32.ofZ n) = true.
Proof.
  intros Hn. unfold F32.ofZ, binary_normalize.
  destruct n as [| p | p]; [reflexivity | | lia].
  unfold binary_round.
  destruct (shl_align p 0 (fexp F32.prec F32.emax (Z.pos (digits2_pos p) + 0)))
    as [mz ez].
  apply binary_round_aux_notNegative. lia.
Qed.

Lemma div_notNegative (x : float32) (my : positive) (ey : Z) :
  notNegative x = true ->
  notNegative (F32.div x (S754_finite false my ey)) = true.
Proof.
  destruct x as [[] | [] | | [] mx ex]; cbn [notNegative];
    try discriminate; intros _; try reflexivity.
  unfold F32.div, SFdiv, SFdiv_core_binary.
  set (mm := match _ - _ - _ with Z0 => Z.pos mx | Z.pos _ => _ | Z.neg _ => 0 end).
  assert (Hmm : 0 <= mm).
  { subst mm. match goal with |- 0 <= match ?s with _ => _ end =>
      destruct s as [| p | p] eqn:Hs end; [lia | | lia].
    apply Z.shiftl_nonneg. lia. }
  pose proof (Z_div_mod mm (Z.pos my) eq_refl) as Hdiv.
  destruct (Z.div_eucl mm (Z.pos my)) as [q r].
  apply binary_round_aux_notNegative. cbn [xorb]. nia.
Qed.

Lemma notNegative_rejected (x : float32) :
  notNegative x = true -> F32.gtb x (F32.ofZ 0) = false -> x = F32.ofZ 0.
Proof.
  destruct x as [[] | [] | | [] m e]; cbn [notNegative];
    try discriminate; intros _ _; reflexivity.
Qed.

Lemma isdigit_value (c : ascii) : isdigit c = true -> 0 <= digitValue c.
Proof.
  unfold isdigit, digitValue. intros H.
  apply andb_true_iff in H. destruct H as (H & _).
  apply Nat.leb_le in H. lia.
Qed.

Lemma scanDecimal_bounds (s : string) (dot : bool) (n k : Z) :
  0 <= n ->
  0 <= fst (scanDecimal s dot n k) /\
  k <= snd (scanDecimal s dot n k) <= k + Z.of_nat (String.length s).
Proof.
  revert dot n k. induction s as [| c s IH]; intros dot n k Hn.
  - cbn. lia.
  - cbn [scanDecimal].
    change (String.length (String c s)) with (S (String.length s)).
    destruct (isdigit c) eqn:Hc.
    + pose proof (isdigit_value c Hc) as Hv.
      destruct (IH dot (10 * n + digitValue c) (if dot then k + 1 else k))
        as (H1 & H2); [lia |].
      split; [exact H1 |]. destruct dot; lia.
    + destruct (Ascii.eqb c "." && negb dot).
      * destruct (IH true n k Hn) as (H1 & H2). split; [exact H1 | lia].
      * cbn. lia.
Qed.

Lemma decimalToFloat_rejected (s : string) :
  (String.length s <= 6)%nat ->
  F32.gtb (decimalToFloat s) (F32.ofZ 0) = false ->
  decimalToFloat s = F32.ofZ 0.
Proof.
  intros Hlen. apply notNegative_rejected.
  unfold decimalToFloat.
  destruct (scanDecimal_bounds s false 0 0) as (Hn & Hk); [lia |].
  destruct (scanDecimal s false 0 0) as [n k]. cbn [fst snd] in Hn, Hk.
  assert (Hcases : k = 0 \/ k = 1 \/ k = 2 \/ k = 3 \/ k = 4 \/ k = 5 \/ k = 6)
    by lia.
  destruct Hcases as [-> | [-> | [-> | [-> | [-> | [-> | ->]]]]]];
    match goal with |- context [F32.ofZ (10 ^ ?j)] =>
      let y := eval vm_compute in (F32.ofZ (10 ^ j)) in
      change (F32.ofZ (10 ^ j)) with y
    end;
    apply div_notNegative, ofZ_notNegative, Hn.
Qed.

(** From power-on, whenever the mode is WEIGHT_INPUT the stored target is
    0, provided every rejected entry parses to +0.0. *)
Lemma loop_idle_target (E : Env) (w : World) :
  (forall s, entryOnly s = true -> (String.length s <= 6)%nat ->
     F32.gtb (toFloat E s) (F32.ofZ 0) = false -> toFloat E s = F32.ofZ 0) ->
  entryOnly (userInput w) = true ->
  (String.length (userInput w) <= 6)%nat ->
  (currentMode w = WEIGHT_INPUT -> desiredWeight w = F32.ofZ 0) ->
  currentMode (exec (loop E) w) = WEIGHT_INPUT ->
  desiredWeight (exec (loop E) w) = F32.ofZ 0.
Proof.
  intros Hparse Hentry Hlen Hzero. rewrite loop_dispatch.
  destruct (currentMode w) eqn:Hmode; intros Hidle.
  - rewrite processUserInput_handleKey in *.
    destruct (handleKey_idle E (keyAt E (tick w)) (set_tick (S (tick w)) w)
                Hmode Hidle) as [-> | (-> & Hrej)].
    + apply Hzero. reflexivity.
    + apply Hparse; assumption.
  - apply (performTaring_idle E w Hmode Hidle).
  - destruct (controlDispensing_busy E w Hmode Hidle).
  - apply (showCompletion_idle E w Hmode Hidle).
Qed.

Lemma run_idle_target (E : Env) (n : nat) (w0 : World) :
  (forall s, entryOnly s = true -> (String.length s <= 6)%nat ->
     F32.gtb (toFloat E s) (F32.ofZ 0) = false -> toFloat E s = F32.ofZ 0) ->
  boot E = Some w0 ->
  let w := run E n w0 in
  entryOnly (userInput w) = true /\
  (String.length (userInput w) <= 6)%nat /\
  (currentMode w = WEIGHT_INPUT -> desiredWeight w = F32.ofZ 0).
Proof.
  intros Hparse Hboot.
  apply (run_invariant E
           (fun w => entryOnly (userInput w) = true /\
                     (String.length (userInput w) <= 6)%nat /\
                     (currentMode w = WEIGHT_INPUT ->
                      desiredWeight w = F32.ofZ 0))).
  - intros w (Hentry & Hlen & Hzero). split; [| split].
    + apply loop_entryOnly, Hentry.
    + apply (run_length_bounded E 1 w Hlen).
    + apply loop_idle_target; assumption.
  - destruct (boot_state E w0 Hboot) as (_ & Hd & Hb & _).
    rewrite Hb. split; [reflexivity | split; [cbv; lia | intros _; exact Hd]].
Qed.

(** C4.  From power-on, with a parser that gives +0.0 for every entry
    the keypad can produce that is not > 0 (as [toFloat] does on strings
    of digits): in WEIGHT_INPUT targetMass changes only when [#] arrives
    with a non-empty buffer that parses to a value > 0; it then holds
    the parsed value and the mode becomes ZEROING.  When the buffer is
    empty or its parse is not > 0 (in particular <= 0), the mode stays
    WEIGHT_INPUT and the stored targetMass is unchanged, whatever the
    key. *)
Theorem target_set_only_by_accepted_entry (E : Env) (n : nat) (w0 : World) :
  (forall s, entryOnly s = true -> (String.length s <= 6)%nat ->
     F32.gtb (toFloat E s) (F32.ofZ 0) = false -> toFloat E s = F32.ofZ 0) ->
  boot E = Some w0 ->
  let w := run E n w0 in
  let w' := exec (loop E) w in
  let key := keyAt E (tick w) in
  let parsed := toFloat E (userInput w) in
  currentMode w = WEIGHT_INPUT ->
  (desiredWeight w' <> desiredWeight w ->
     key = "#"%char /\ userInput w <> EmptyString /\
     F32.gtb parsed (F32.ofZ 0) = true /\
     desiredWeight w' = parsed /\ currentMode w' = ZEROING) /\
  (userInput w = EmptyString \/ F32.gtb parsed (F32.ofZ 0) = false ->
     currentMode w' = WEIGHT_INPUT /\ desiredWeight w' = desiredWeight w).
Proof.
  intros Hparse Hboot w w' key parsed Hmode.
  destruct (run_idle_target E n w0 Hparse Hboot) as (Hentry & Hlen & Hzero).
  fold w in Hentry, Hlen, Hzero. specialize (Hzero Hmode).
  pose proof (finalize_assigns_before_validating E w Hmode) as Hstep.
  cbv zeta in Hstep. fold w' key parsed in Hstep.
  destruct Hstep as (Hhash & Hother).
  assert (Hrej : F32.gtb parsed (F32.ofZ 0) = false ->
                 currentMode w' = WEIGHT_INPUT /\
                 desiredWeight w' = desiredWeight w).
  { intros Hg.
    destruct (Ascii.eqb_spec key "#") as [Hk | Hk];
      [| destruct (Hother (or_introl Hk)) as (Hd & Hm); split; assumption].
    destruct (string_dec (userInput w) EmptyString) as [He | He];
      [destruct (Hother (or_intror He)) as (Hd & Hm); split; assumption |].
    destruct (Hhash (conj Hk He)) as (Hd & _ & Hstay).
    split; [apply Hstay, Hg |].
    rewrite Hd, Hzero. apply Hparse; assumption. }
  split.
  - intros Hchanged.
    destruct (F32.gtb parsed (F32.ofZ 0)) eqn:Hg;
      [| destruct (Hrej eq_refl) as (_ & Hd); contradiction].
    destruct (Ascii.eqb_spec key "#") as [Hk | Hk];
      [| destruct (Hother (or_introl Hk)) as (Hd & _); contradiction].
    destruct (string_dec (userInput w) EmptyString) as [He | He];
      [destruct (Hother (or_intror He)) as (Hd & _); contradiction |].
    destruct (Hhash (conj Hk He)) as (Hd & Hgo & _).
    repeat split; try assumption. apply Hgo. reflexivity.
  - intros [He | Hg]; [| apply Hrej, Hg].
    destruct (Hother (or_intror He)) as (Hd & Hm). split; assumption.
Qed.

Lemma rejected_entry_witness :
  let w := run zeroBench 1 (booted zeroBench) in
  let w' := exec (loop zeroBench) w in
  userInput w = "0" /\ keyAt zeroBench (tick w) = "#"%char /\
  currentMode w' = WEIGHT_INPUT /\ desiredWeight w' = desiredWeight w.
Proof.
  cbv zeta. split; [vm_compute; reflexivity |].
  split; [vm_compute; reflexivity |].
  refine (proj2 (target_set_only_by_accepted_entry zeroBench 1
                   (booted zeroBench) _ _ _) _).
  - intros s _ Hlen. apply decimalToFloat_rejected, Hlen.
  - vm_compute. reflexivity.
  - vm_compute. reflexivity.
  - right. vm_compute. reflexivity.
Defined.

(** C9.  From power-on, with keys delivered from [keypadButtons]: the
    buffer always has length at most 6 and holds at most one decimal
    point.  At length 6 the key of the next poll is not appended (a
    digit or point leaves the buffer as it is).  Line 141 does not count
    decimal points; the bound on them holds because no key of the keymap
    is a decimal point, so no key that would violate it ever arrives. *)
Theorem buffer_bounded_for_keypad_keys (E : Env) (n : nat) (w0 : World) :
  (forall i, keyAt E i = NO_KEY \/ In (keyAt E i) keypadKeys) ->
  boot E = Some w0 ->
  let w := run E n w0 in
  let w' := exec (loop E) w in
  let k := keyAt E (tick w) in
  (String.length (userInput w) <= 6)%nat /\
  (countDots (userInput w) <= 1)%nat /\
  (String.length (userInput w) = 6%nat ->
   userInput w' <> userInput w ++ String k EmptyString) /\
  (currentMode w = WEIGHT_INPUT -> isEntryKey k = true ->
   String.length (userInput w) = 6%nat -> userInput w' = userInput w) /\
  k <> "."%char.
Proof.
  intros Hkeys Hboot w w' k.
  destruct (boot_state E w0 Hboot) as (_ & _ & Hb & _).
  assert (Hlen : (String.length (userInput w) <= 6)%nat).
  { apply run_length_bounded. rewrite Hb. cbv; lia. }
  assert (Hdots : countDots (userInput w) = 0%nat).
  { apply (run_no_dots E n w0 Hkeys). rewrite Hb. reflexivity. }
  pose proof (buffer_length_bounded_points_unchecked E 1 w Hlen) as Hstep.
  cbv zeta in Hstep. fold w' k in Hstep.
  destruct Hstep as (Hlen' & Hfull & _).
  change (run E 1 w) with w' in Hlen'.
  refine (conj Hlen (conj _ (conj _ (conj Hfull _)))).
  - rewrite Hdots. lia.
  - intros Hsix Happ. rewrite Happ, length_snoc, Hsix in Hlen'. lia.
  - intros Hdot. pose proof (keymap_has_no_dot k (Hkeys (tick w))) as Hno.
    rewrite Hdot in Hno. discriminate Hno.
Qed.

Lemma buffer_bounded_witness :
  let w := run fullBench 6 (booted fullBench) in
  let w' := exec (loop fullBench) w in
  userInput w = "123456" /\ keyAt fullBench (tick w) = "7"%char /\
  userInput w' = "123456".
Proof.
  cbv zeta. split; [vm_compute; reflexivity |].
  split; [vm_compute; reflexivity |].
  transitivity (userInput (run fullBench 6 (booted fullBench)));
    [| vm_compute; reflexivity].
  refine (proj1 (proj2 (proj2 (proj2
            (buffer_bounded_for_keypad_keys fullBench 6 (booted fullBench)
               _ _)))) _ _ _).
  - intros i.
    do 9 (destruct i as [| i];
          [first [left; reflexivity
                 | right; cbv; repeat (first [left; reflexivity | right])] |]).
    left; reflexivity.
  - vm_compute. reflexivity.
  - vm_compute. reflexivity.
  - vm_compute. reflexivity.
  - vm_compute. reflexivity.
Defined.

(** X1. [abs] is a macro, so each sample calls [getData()] twice: the
    first answer decides the sign, the second one is stored, negated
    when the first was not positive.  When the two answers of every
    sample agree, [measuredWeight] is never negative from power-on
    onwards: it is 0 after [setup()] and after a reset, and otherwise
    the absolute value of a load-cell reading. *)
Theorem measured_weight_never_negative (E : Env) (n : nat) (w0 : World) :
  (forall i, updateAt E i = true -> dataAt E (S (S i)) = dataAt E (S i)) ->
  boot E = Some w0 ->
  F32.gtb (F32.ofZ 0) (measuredWeight (run E n w0)) = false.
Proof.
  intros Hsame Hboot.
  apply (run_invariant E
           (fun w => F32.gtb (F32.ofZ 0) (measuredWeight w) = false)).
  - intros w. apply loop_measured_not_negative. exact Hsame.
  - destruct (boot_motor E w0 Hboot) as (_ & _ & _ & ->). reflexivity.
Qed.

(** X2. From power-on onwards the motor is energised only while
    dispensing: [isMotorOn] holds exactly in DISPENSING, outside
    DISPENSING both motor lines are low, and line 2 is never high. *)
Theorem motor_runs_only_while_dispensing (E : Env) (n : nat) (w0 : World) :
  boot E = Some w0 ->
  let w := run E n w0 in
  motorLine2 w = LOW /\
  (isMotorOn w = true <-> currentMode w = DISPENSING) /\
  (currentMode w <> DISPENSING -> motorLine1 w = LOW).
Proof.
  intros Hboot w.
  assert (Hinv : motorConsistent w).
  { apply (run_invariant E motorConsistent).
    - apply loop_motorConsistent.
    - destruct (boot_state E w0 Hboot) as (Hm & _ & _ & Hf & _).
      destruct (boot_motor E w0 Hboot) as (H1 & H2 & Hon & _).
      unfold motorConsistent. rewrite Hm. repeat split; assumption. }
  destruct Hinv as (H2 & Hmode). split; [exact H2 |].
  revert Hmode. destruct (currentMode w); intros Hmode;
    intuition (discriminate || congruence).
Qed.

(** X3. From power-on onwards every cycle starts in coarse mode: the
    fine mode is off throughout WEIGHT_INPUT and ZEROING, and while
    DISPENSING runs with the fine mode off, motor line 1 is high (full
    power). *)
Theorem cycle_starts_at_full_power (E : Env) (n : nat) (w0 : World) :
  boot E = Some w0 ->
  let w := run E n w0 in
  (currentMode w = WEIGHT_INPUT \/ currentMode w = ZEROING ->
   fineControlMode w = false) /\
  (currentMode w = DISPENSING -> fineControlMode w = false ->
   motorLine1 w = HIGH /\ motorLine2 w = LOW).
Proof.
  intros Hboot w.
  assert (Hinv : motorConsistent w).
  { apply (run_invariant E motorConsistent).
    - apply loop_motorConsistent.
    - destruct (boot_state E w0 Hboot) as (Hm & _ & _ & Hf & _).
      destruct (boot_motor E w0 Hboot) as (H1 & H2 & Hon & _).
      unfold motorConsistent. rewrite Hm. repeat split; assumption. }
  destruct Hinv as (H2 & Hmode).
  revert Hmode. destruct (currentMode w); intros Hmode;
    intuition (discriminate || congruence).
Qed.

(** X4. From power-on onwards the stored target is positive whenever a
    cycle is under way (ZEROING, DISPENSING or FINISHED). *)
Theorem target_positive_during_cycle (E : Env) (n : nat) (w0 : World) :
  boot E = Some w0 ->
  let w := run E n w0 in
  currentMode w <> WEIGHT_INPUT ->
  F32.gtb (desiredWeight w) (F32.ofZ 0) = true.
Proof.
  intros Hboot.
  apply (run_invariant E
           (fun w => currentMode w <> WEIGHT_INPUT ->
                     F32.gtb (desiredWeight w) (F32.ofZ 0) = true)).
  - intros w. apply loop_target_positive.
  - destruct (boot_state E w0 Hboot) as (Hm & _). congruence.
Qed.

(** X5. From power-on onwards the buffer holds only digits and decimal
    points, whatever keys arrive. *)
Theorem buffer_holds_only_digits_and_points
    (E : Env) (n : nat) (w0 : World) :
  boot E = Some w0 ->
  entryOnly (userInput (run E n w0)) = true.
Proof.
  intros Hboot.
  apply (run_invariant E (fun w => entryOnly (userInput w) = true)).
  - apply loop_entryOnly.
  - destruct (boot_state E w0 Hboot) as (_ & _ & -> & _). reflexivity.
Qed.

(** *** Key entry *)

(** X6. In WEIGHT_INPUT the [*] key empties the buffer whatever it held,
    redraws the prompt and blanks the second display row; the mode and the
    stored target are left alone. *)
Theorem cancel_clears_buffer_and_prompts (E : Env) (w : World) :
  currentMode w = WEIGHT_INPUT ->
  keyAt E (tick w) = "*"%char ->
  let w' := exec (loop E) w in
  userInput w' = EmptyString /\
  currentMode w' = WEIGHT_INPUT /\
  desiredWeight w' = desiredWeight w /\
  lcdTrace w' =
    LcdPrint [Txt blankRow] :: LcdSetCursor 0 1 ::
    LcdPrint [Txt "Input Weight (g):"] :: LcdSetCursor 0 0 :: LcdClear ::
    lcdTrace w.
Proof.
  intros Hmode Hkey.
  rewrite loop_dispatch, Hmode, processUserInput_handleKey, Hkey.
  destruct w; cbn in Hmode |- *; subst.
  unfold_prog; cbn. repeat split.
Qed.

Lemma append_snoc (a b : string) (k : ascii) :
  (a ++ String k EmptyString) ++ b = a ++ String k b.
Proof.
  induction a as [| c a IH]; cbn [append]; [reflexivity |].
  now rewrite IH.
Qed.

Lemma append_empty (a : string) : a ++ EmptyString = a.
Proof.
  induction a as [| c a IH]; cbn [append]; [reflexivity | now rewrite IH].
Qed.

Section Typing.
Variable E : Env.

Lemma handleKey_entry k w :
  isEntryKey k = true ->
  (String.length (userInput w) < 6)%nat ->
  let w' := exec (handleKey E k) w in
  (exists o,
     w' = set_userInput (userInput w ++ String k EmptyString) (set_out o w))
  /\ echoes w'.
Proof.
  intros Hentry Hroom.
  destruct (Ascii.eqb_spec k NO_KEY) as [-> | Hno]; [discriminate Hentry |].
  destruct (Ascii.eqb_spec k "#") as [-> | Hhash]; [discriminate Hentry |].
  destruct (Ascii.eqb_spec k "*") as [-> | Hstar]; [discriminate Hentry |].
  apply Ascii.eqb_neq in Hno, Hhash, Hstar.
  apply Nat.ltb_lt in Hroom. unfold isEntryKey in Hentry.
  destruct w; cbn in Hroom |- *. unfold_prog; cbn.
  rewrite Hno. cbn. rewrite Hhash, Hstar. cbn.
  rewrite Hentry, Hroom. cbn. unfold_set.
  split; [eexists; reflexivity | unfold echoes, lcdTrace; cbn].
  eexists; reflexivity.
Qed.

Lemma handleKey_finalize w :
  userInput w <> EmptyString ->
  F32.gtb (toFloat E (userInput w)) (F32.ofZ 0) = true ->
  exists o,
    exec (handleKey E "#") w =
    set_desiredWeight (toFloat E (userInput w))
      (set_currentMode ZEROING (set_out o w)).
Proof.
  intros Hbuf Hpos. destruct w; cbn in Hbuf, Hpos |- *.
  unfold_prog; cbn. rewrite (nonempty_length _ Hbuf). cbn.
  rewrite Hpos. cbn. unfold_set. eexists; reflexivity.
Qed.

Lemma typing_appends (ks : list ascii) :
  forall w,
    currentMode w = WEIGHT_INPUT ->
    Forall (fun k => isEntryKey k = true) ks ->
    (forall i, (i < List.length ks)%nat ->
               keyAt E (tick w + i) = nth i ks NO_KEY) ->
    (String.length (userInput w) + List.length ks <= 6)%nat ->
    let w' := run E (List.length ks) w in
    userInput w' = userInput w ++ stringOf ks /\
    currentMode w' = WEIGHT_INPUT /\
    desiredWeight w' = desiredWeight w /\
    tick w' = (tick w + List.length ks)%nat /\
    (ks <> [] -> echoes w').
Proof.
  induction ks as [| k ks IH]; intros w Hmode Hall Hkeys Hfit.
  - cbn. rewrite append_empty, Nat.add_0_r.
    refine (conj _ (conj _ (conj _ (conj _ _))));
      try reflexivity; try assumption.
    intros Hnil. congruence.
  - cbn [List.length run] in *.
    inversion Hall as [| k' ks' Hk Hrest]; subst.
    pose proof (Hkeys 0%nat ltac:(lia)) as Hk0.
    rewrite Nat.add_0_r in Hk0. cbn [nth] in Hk0.
    rewrite loop_dispatch, Hmode, processUserInput_handleKey, Hk0.
    destruct (handleKey_entry k (set_tick (S (tick w)) w) Hk)
      as ((o & Hstep) & Hecho); [cbn; lia |].
    rewrite Hstep in *. clear Hstep.
    match goal with |- context [run E _ ?x] => set (w1 := x) in * end.
    destruct (IH w1) as (Hbuf & Hm & Hd & Ht & Hlcd).
    + exact Hmode.
    + exact Hrest.
    + intros i Hi. change (tick w1) with (S (tick w)).
      replace (S (tick w) + i)%nat with (tick w + S i)%nat by lia.
      rewrite (Hkeys (S i)) by lia. reflexivity.
    + change (userInput w1) with (userInput w ++ String k EmptyString).
      rewrite length_snoc. lia.
    + cbv zeta. rewrite Hbuf, Hm, Hd, Ht.
      change (userInput w1) with (userInput w ++ String k EmptyString).
      change (tick w1) with (S (tick w)).
      rewrite append_snoc.
      refine (conj _ (conj _ (conj _ (conj _ _)))); try reflexivity; try lia.
      intros _. destruct ks as [| k2 ks2]; [exact Hecho | apply Hlcd].
      discriminate.
Qed.

End Typing.

(** X7. Typing composes.  Starting in WEIGHT_INPUT with an empty buffer,
    when the keypad delivers up to six digits or points [ks] on successive
    polls, the buffer holds exactly [ks] and the display echoes it; when
    the next key is [#] and the buffer parses to a value > 0, the target is
    the parse of what was typed and the mode is ZEROING. *)
Theorem typed_entry_becomes_target (E : Env) (ks : list ascii) (w : World) :
  currentMode w = WEIGHT_INPUT ->
  userInput w = EmptyString ->
  ks <> [] ->
  (List.length ks <= 6)%nat ->
  Forall (fun k => isEntryKey k = true) ks ->
  (forall i, (i < List.length ks)%nat ->
             keyAt E (tick w + i) = nth i ks NO_KEY) ->
  let typed := run E (List.length ks) w in
  let w' := run E (S (List.length ks)) w in
  (userInput typed = stringOf ks /\ currentMode typed = WEIGHT_INPUT /\
   echoes typed) /\
  (keyAt E (tick w + List.length ks) = "#"%char ->
   F32.gtb (toFloat E (stringOf ks)) (F32.ofZ 0) = true ->
   desiredWeight w' = toFloat E (stringOf ks) /\ currentMode w' = ZEROING).
Proof.
  intros Hmode Hempty Hsome Hlen Hall Hkeys typed w'.
  destruct (typing_appends E ks w Hmode Hall Hkeys)
    as (Hbuf & Hm & _ & Ht & Hecho);
    [rewrite Hempty; change (0 + List.length ks <= 6)%nat; lia |].
  fold typed in Hbuf, Hm, Ht, Hecho.
  rewrite Hempty in Hbuf. cbn [append] in Hbuf.
  split; [split; [exact Hbuf | split; [exact Hm | exact (Hecho Hsome)]] |].
  intros Hhash Hpos. subst w'. rewrite run_snoc. fold typed.
  rewrite <- Ht in Hhash.
  rewrite loop_dispatch, Hm, processUserInput_handleKey, Hhash.
  destruct (handleKey_finalize E (set_tick (S (tick typed)) typed))
    as (o & ->).
  - change (userInput typed <> EmptyString). rewrite Hbuf.
    destruct ks; [congruence | discriminate].
  - change (F32.gtb (toFloat E (userInput typed)) (F32.ofZ 0) = true).
    rewrite Hbuf. exact Hpos.
  - cbn. rewrite Hbuf. split; reflexivity.
Qed.

(** *** Taring *)

(** X8. The first poll of a handshake ([isTaring] clear) sends exactly
    one tare command, sets [isTaring], records the value of its last
    [millis()] call as [tareBeginTime] and returns: the mode stays
    ZEROING whatever the clock says, and the motor, the target and the
    buffer are not touched. *)
Theorem first_taring_poll_starts_handshake (E : Env) (w : World) :
  currentMode w = ZEROING ->
  isTaring w = false ->
  let w' := exec (loop E) w in
  tareCommands w' = S (tareCommands w) /\
  isTaring w' = true /\
  tareBeginTimeReady w' = true /\
  tareBeginTime w' = toULong (millisAt E (pred (tick w'))) /\
  currentMode w' = ZEROING /\
  isMotorOn w' = isMotorOn w /\ motorLine1 w' = motorLine1 w /\
  motorLine2 w' = motorLine2 w /\
  desiredWeight w' = desiredWeight w /\ userInput w' = userInput w.
Proof.
  intros Hmode Hidle. rewrite loop_dispatch, Hmode.
  destruct w; cbn in Hmode, Hidle |- *; subst.
  unfold_prog; cbn. case_if; cbn; unfold tareCommands; cbn; repeat split.
Qed.

(** X9. While the handshake is in progress and within its 10 s, a poll
    that finds no fresh reading, or a fresh reading without the
    tare-complete flag, changes nothing but the serial log: no tare
    command, no display command, every variable as before. *)
Theorem taring_poll_waits (E : Env) (w : World) :
  currentMode w = ZEROING ->
  isTaring w = true ->
  tareBeginTimeReady w = true ->
  usub (toULong (millisAt E (tick w))) (tareBeginTime w) <= 10000 ->
  updateAt E (S (tick w)) = false \/
  tareStatusAt E (S (S (tick w))) = false ->
  let w' := exec (loop E) w in
  (exists o t, w' = set_out o (set_tick t w)) /\
  tareCommands w' = tareCommands w /\
  lcdTrace w' = lcdTrace w.
Proof.
  intros Hmode Htaring Hready Hintime Hwait. rewrite loop_dispatch, Hmode.
  destruct w; cbn in Hmode, Htaring, Hready, Hintime, Hwait |- *; subst.
  unfold_prog; cbn. apply Z.ltb_ge in Hintime. rewrite Hintime. cbn.
  destruct Hwait as [Hstale | Hpending].
  - rewrite Hstale. cbn. unfold_set.
    split; [do 2 eexists; reflexivity | split; reflexivity].
  - case_if; cbn; [rewrite Hpending; cbn |]; unfold_set;
      (split; [do 2 eexists; reflexivity | split; reflexivity]).
Qed.

(** X10. When the tare completes in time, the handshake is re-armed
    ([isTaring] cleared) and the motor is marked on; the motor lines are
    driven to full power (line 1 high, line 2 low) when the fine mode is
    off, and left as they are when it is on.  The target and the buffer
    are kept. *)
Theorem tare_success_starts_motor (E : Env) (w : World) :
  currentMode w = ZEROING ->
  isTaring w = true ->
  tareBeginTimeReady w = true ->
  usub (toULong (millisAt E (tick w))) (tareBeginTime w) <= 10000 ->
  updateAt E (S (tick w)) = true ->
  tareStatusAt E (S (S (tick w))) = true ->
  let w' := exec (loop E) w in
  isTaring w' = false /\ isMotorOn w' = true /\
  (fineControlMode w = false -> motorLine1 w' = HIGH /\ motorLine2 w' = LOW) /\
  (fineControlMode w = true ->
   motorLine1 w' = motorLine1 w /\ motorLine2 w' = motorLine2 w) /\
  fineControlMode w' = fineControlMode w /\
  desiredWeight w' = desiredWeight w /\ userInput w' = userInput w.
Proof.
  intros Hmode Htaring Hready Hintime Hfresh Hdone.
  rewrite loop_dispatch, Hmode.
  destruct w; cbn in Hmode, Htaring, Hready, Hintime, Hfresh, Hdone |- *; subst.
  unfold_prog; cbn. apply Z.ltb_ge in Hintime. rewrite Hintime. cbn.
  rewrite Hfresh. cbn. rewrite Hdone. cbn.
  case_if; cbn; repeat split; intros; reflexivity || discriminate.
Qed.

(** *** The dwell in FINISHED *)

Lemma usub_elapsed (c d : Z) :
  0 <= d < ULONG -> usub (toULong (c + d)) c = d.
Proof.
  intros Hd. unfold usub, toULong.
  rewrite Zminus_mod_idemp_l. replace (c + d - c) with d by lia.
  apply Z.mod_small, Hd.
Qed.

(** X11. FINISHED lasts 5000 ms counted from [completionTime], also
    across a wrap of the 32-bit millisecond counter: a poll [d] ms after
    completion changes nothing when d < 5000 and ends in the full reset
    when d >= 5000 (for any d below 2^32). *)
Theorem finished_dwell_is_wrap_safe (E : Env) (w : World) (d : Z) :
  currentMode w = FINISHED ->
  0 <= d < ULONG ->
  millisAt E (tick w) = completionTime w + d ->
  let w' := exec (loop E) w in
  (d < 5000 -> w' = set_tick (S (tick w)) w) /\
  (5000 <= d -> resetBetween w w' /\ currentMode w' = WEIGHT_INPUT).
Proof.
  intros Hmode Hd Hclock. rewrite loop_dispatch, Hmode.
  pose proof (usub_elapsed (completionTime w) d Hd) as Helapsed.
  rewrite <- Hclock in Helapsed.
  destruct w; cbn in Hclock, Helapsed |- *.
  unfold_prog; cbn. rewrite Helapsed. split; intros Hcmp.
  - apply Z.leb_gt in Hcmp. rewrite Hcmp. reflexivity.
  - apply Z.leb_le in Hcmp. rewrite Hcmp. cbn. unfold_set.
    split; [reset_here | reflexivity].
Qed.

(** *** Sampling *)

Lemma sampleSensor_spec (E : Env) (w : World) :
  let w' := exec (sampleSensor E) w in
  let elapsed := usub (toULong (millisAt E (tick w))) (lastMeasurement w) in
  (elapsed < 200 ->
   measuredWeight w' = measuredWeight w /\
   lastMeasurement w' = lastMeasurement w) /\
  (200 <= elapsed ->
   measuredWeight w' =
     (if updateAt E (S (tick w))
      then (if F32.gtb (dataAt E (S (S (tick w)))) (F32.ofZ 0)
            then dataAt E (S (S (S (tick w))))
            else F32.neg (dataAt E (S (S (S (tick w))))))
      else measuredWeight w) /\
   lastMeasurement w' = toULong (millisAt E (pred (tick w')))).
Proof.
  destruct w; unfold_prog; cbn. unfold SENSOR_READ_DELAY.
  split; intros Hcmp.
  - apply Z.leb_gt in Hcmp. rewrite Hcmp. cbn. split; reflexivity.
  - apply Z.leb_le in Hcmp. rewrite Hcmp. cbn.
    case_if; cbn; split; reflexivity.
Qed.

(** X12. The reading is taken at most once per 200 ms: a DISPENSING poll
    less than 200 ms after [lastMeasurement] keeps [measuredWeight] and
    [lastMeasurement]; a later poll, if a reading is fresh, calls
    [getData()] twice (the [abs] macro), stores the second answer when
    the first is positive and its negation otherwise, keeps the old
    value when no reading is fresh, and restarts the 200 ms window in
    both cases. *)
Theorem sampling_is_rate_limited (E : Env) (w : World) :
  currentMode w = DISPENSING ->
  let w' := exec (loop E) w in
  let elapsed := usub (toULong (millisAt E (tick w))) (lastMeasurement w) in
  (elapsed < 200 ->
   measuredWeight w' = measuredWeight w /\
   lastMeasurement w' = lastMeasurement w) /\
  (200 <= elapsed ->
   measuredWeight w' =
     (if updateAt E (S (tick w))
      then (if F32.gtb (dataAt E (S (S (tick w)))) (F32.ofZ 0)
            then dataAt E (S (S (S (tick w))))
            else F32.neg (dataAt E (S (S (S (tick w))))))
      else measuredWeight w) /\
   lastMeasurement w' =
     toULong (millisAt E (pred (tick (exec (sampleSensor E) w))))).
Proof.
  intros Hmode. cbv zeta.
  rewrite loop_dispatch, Hmode, controlDispensing_stages.
  pose proof (sampleSensor_spec E w) as Hsample. cbv zeta in Hsample.
  set (w1 := exec (sampleSensor E) w) in *.
  destruct (refreshReadout_frame E w1) as (pu & o2 & t2 & ->).
  match goal with |- context [exec (driveMotor E) ?x] =>
    destruct (driveMotor_frame E x) as (a & lc & l1 & l2 & o3 & t3 & ->) end.
  match goal with |- context [exec (manageMotor E) ?x] =>
    destruct (manageMotor_frame E x)
      as (f & mo & l1' & l2' & md & ct & o4 & t4 & ->) end.
  exact Hsample.
Qed.

(** *** The state machine *)

(** X13. One iteration of [loop()] either keeps the mode or follows one
    of five edges: WEIGHT_INPUT to ZEROING, ZEROING to DISPENSING,
    ZEROING to WEIGHT_INPUT, DISPENSING to FINISHED, FINISHED to
    WEIGHT_INPUT. *)
Theorem mode_changes_follow_the_cycle (E : Env) (w : World) :
  let m := currentMode w in
  let m' := currentMode (exec (loop E) w) in
  m' = m \/
  (m = WEIGHT_INPUT /\ m' = ZEROING) \/
  (m = ZEROING /\ m' = DISPENSING) \/
  (m = ZEROING /\ m' = WEIGHT_INPUT) \/
  (m = DISPENSING /\ m' = FINISHED) \/
  (m = FINISHED /\ m' = WEIGHT_INPUT).
Proof.
  cbv zeta. rewrite loop_dispatch. destruct (currentMode w) eqn:Hm.
  - rewrite processUserInput_handleKey.
    destruct (handleKey_mode E (keyAt E (tick w)) (set_tick (S (tick w)) w) Hm)
      as [-> | (-> & _)]; tauto.
  - pose proof (performTaring_step E w) as Hstep. cbv zeta in Hstep.
    destruct Hstep as [Hreset | [(it & rdy & tb & o & t & ->) | (-> & _)]].
    + destruct (reset_state _ _ Hreset) as (-> & _). tauto.
    + cbn. rewrite Hm. tauto.
    + tauto.
  - destruct (controlDispensing_step E w)
      as (_ & _ & _ & [(-> & _) | (-> & _)]); [| rewrite Hm]; tauto.
  - destruct (showCompletion_frame E w) as [Hreset | ->].
    + destruct (reset_state _ _ Hreset) as (-> & _). tauto.
    + cbn. rewrite Hm. tauto.
Qed.

(** X14. Outside WEIGHT_INPUT the keypad has no effect: an iteration in
    ZEROING, DISPENSING or FINISHED either ends in the full reset or
    leaves the buffer and the target as they were. *)
Theorem cycle_keeps_buffer_and_target (E : Env) (w : World) :
  currentMode w <> WEIGHT_INPUT ->
  let w' := exec (loop E) w in
  resetBetween w w' \/
  (userInput w' = userInput w /\ desiredWeight w' = desiredWeight w).
Proof.
  intros Hbusy. cbv zeta. rewrite loop_dispatch.
  destruct (currentMode w) eqn:Hm; [congruence | | |].
  - destruct (performTaring_frame E w)
      as [Hreset | (it & rdy & tb & m & mo & l1 & l2 & o & t & ->)];
      [left; exact Hreset | right; split; reflexivity].
  - destruct (controlDispensing_step E w) as (-> & -> & _).
    right; split; reflexivity.
  - destruct (showCompletion_frame E w) as [Hreset | ->];
      [left; exact Hreset | right; split; reflexivity].
Qed.

(** *** Start-up *)

(** X15. [setup()] returns exactly when neither sensor fault flag is
    raised; it reads the tare flag first and the signal flag only when
    the tare flag is clear (one external query or two).  On a fault the
    whole output is the serial start-up, the two sensor start commands,
    the error log line and the "Sensor Fault!" message with its log
    line: the display is never initialised, neither motor pin is
    configured (no [pinMode] at all), and no pin is written.  Otherwise
    [loop()] starts in WEIGHT_INPUT with the prompt shown, an empty
    buffer, no target and the motor off. *)
Theorem setup_halts_on_sensor_fault (E : Env) :
  (boot E = None <->
   tareTimeoutAt E 0 = true \/ signalTimeoutAt E 1 = true) /\
  tick (booted E) = (if tareTimeoutAt E 0 then 1%nat else 2%nat) /\
  (boot E = None ->
   out (booted E) =
     [SerialPrintln [Txt "Display shows: "; Txt "Sensor Fault!"];
      SerialPrint [Txt "[LOG] "];
      LcdPrint [Txt "Sensor Fault!"]; LcdSetCursor 0 0; LcdClear;
      SerialPrintln [Txt "Error: Sensor initialization problem"];
      SerialPrint [Txt "[LOG] "];
      SensorStart 2000 true; SensorBegin;
      SerialPrintln [Txt "Starting system setup"];
      SerialPrint [Txt "[LOG] "];
      SerialBegin 9600] /\
   lcdTrace (booted E) =
     [LcdPrint [Txt "Sensor Fault!"]; LcdSetCursor 0 0; LcdClear] /\
   ~ In LcdInit (out (booted E)) /\
   (forall pin, ~ In (PinModeOutput pin) (out (booted E))) /\
   (forall pin level, ~ In (DigitalWrite pin level) (out (booted E))) /\
   (forall pin duty, ~ In (AnalogWrite pin duty) (out (booted E)))) /\
  (forall w, boot E = Some w ->
   currentMode w = WEIGHT_INPUT /\ shows "Input Weight (g):" w /\
   userInput w = EmptyString /\ desiredWeight w = F32.ofZ 0 /\
   motorLine1 w = LOW /\ motorLine2 w = LOW /\ isMotorOn w = false).
Proof.
  unfold boot, booted.
  destruct (setup E powerOn) as [ok b] eqn:Hsetup. cbn [fst snd].
  revert Hsetup. unfold setup, powerOn. unfold_prog. cbn.
  destruct (tareTimeoutAt E 0) eqn:Htare; cbn;
    [| destruct (signalTimeoutAt E 1) eqn:Hsignal; cbn ];
    intros Hsetup; inversion Hsetup; subst; clear Hsetup; cbn.
  - split; [split; [intros _; left; reflexivity | reflexivity] |].
    split; [reflexivity |].
    split; [intros _ | intros w Hw; discriminate Hw].
    refine (conj eq_refl (conj eq_refl _)).
    repeat split; intros; intros Hin;
      repeat (destruct Hin as [Hin | Hin]; [discriminate |]); exact Hin.
  - split; [split; [intros _; right; reflexivity | reflexivity] |].
    split; [reflexivity |].
    split; [intros _ | intros w Hw; discriminate Hw].
    refine (conj eq_refl (conj eq_refl _)).
    repeat split; intros; intros Hin;
      repeat (destruct Hin as [Hin | Hin]; [discriminate |]); exact Hin.
  - split; [split; [discriminate | intros [H | H]; discriminate] |].
    split; [reflexivity |].
    split; [discriminate |].
    intros w Hw. inversion Hw; subst. cbn.
    repeat split. eexists; reflexivity.
Qed.

(** *** A handshake left in progress *)

Section Traces.
Variable E : Env.

(** Only [performTaring] sends tare commands or touches its statics. *)
Lemma processUserInput_taring w :
  let w' := exec (processUserInput E) w in
  tareCommands w' = tareCommands w /\ tareBeginTime w' = tareBeginTime w /\
  tareBeginTimeReady w' = tareBeginTimeReady w.
Proof. symbolic w; repeat split. Qed.

Lemma showCompletion_tare w :
  let w' := exec (showCompletion E) w in
  tareCommands w' = tareCommands w /\ tareBeginTime w' = tareBeginTime w /\
  tareBeginTimeReady w' = tareBeginTimeReady w.
Proof. symbolic w; repeat split. Qed.

Lemma sampleSensor_tare w :
  tareCommands (exec (sampleSensor E) w) = tareCommands w.
Proof. symbolic w; reflexivity. Qed.

Lemma refreshReadout_tare w :
  tareCommands (exec (refreshReadout E) w) = tareCommands w.
Proof. symbolic w; reflexivity. Qed.

Lemma driveMotor_tare w :
  tareCommands (exec (driveMotor E) w) = tareCommands w /\
  lcdTrace (exec (driveMotor E) w) = lcdTrace w.
Proof. symbolic w; split; reflexivity. Qed.

Lemma manageMotor_tare w :
  tareCommands (exec (manageMotor E) w) = tareCommands w /\
  (F32.geb (measuredWeight w) (desiredWeight w) = false ->
   lcdTrace (exec (manageMotor E) w) = lcdTrace w).
Proof.
  symbolic w; cbn; split; intros; try reflexivity; discriminate.
Qed.

Lemma controlDispensing_taring w :
  let w' := exec (controlDispensing E) w in
  tareCommands w' = tareCommands w /\ tareBeginTime w' = tareBeginTime w /\
  tareBeginTimeReady w' = tareBeginTimeReady w.
Proof.
  cbv zeta. rewrite controlDispensing_stages.
  rewrite (proj1 (manageMotor_tare _)), (proj1 (driveMotor_tare _)),
    refreshReadout_tare, sampleSensor_tare.
  destruct (sampleSensor_frame E w) as (m & lm & o1 & t1 & -> & _).
  match goal with |- context [exec (refreshReadout E) ?x] =>
    destruct (refreshReadout_frame E x) as (pu & o2 & t2 & ->) end.
  match goal with |- context [exec (driveMotor E) ?x] =>
    destruct (driveMotor_frame E x) as (a & lc & l1 & l2 & o3 & t3 & ->) end.
  match goal with |- context [exec (manageMotor E) ?x] =>
    destruct (manageMotor_frame E x)
      as (f & mo & l1' & l2' & md & ct & o4 & t4 & ->) end.
  repeat split.
Qed.

Lemma loop_taring_in_progress w :
  isTaring w = true ->
  tareBeginTimeReady w = true ->
  let w' := exec (loop E) w in
  tareCommands w' = tareCommands w /\ tareBeginTime w' = tareBeginTime w /\
  tareBeginTimeReady w' = true.
Proof.
  intros Htaring Hready. cbv zeta. rewrite loop_dispatch.
  destruct (currentMode w).
  - destruct (processUserInput_taring w) as (-> & -> & ->). auto.
  - destruct (performTaring_in_progress E w Htaring Hready) as (-> & -> & _).
    rewrite performTaring_ready. auto.
  - destruct (controlDispensing_taring w) as (-> & -> & ->). auto.
  - destruct (showCompletion_tare w) as (-> & -> & ->). auto.
Qed.

End Traces.

(** X16. A handshake left in progress is never restarted.  From a state
    with [isTaring] set, across any number of iterations in any modes
    (timeouts, resets and new entries included), as long as [isTaring]
    stays set no tare command is sent and [tareBeginTime] does not move. *)
Theorem handshake_in_progress_is_never_restarted
    (E : Env) (n : nat) (w : World) :
  tareBeginTimeReady w = true ->
  (forall i, (i <= n)%nat -> isTaring (run E i w) = true) ->
  tareCommands (run E n w) = tareCommands w /\
  tareBeginTime (run E n w) = tareBeginTime w.
Proof.
  revert w. induction n as [| n IH]; intros w Hready Hset.
  - split; reflexivity.
  - destruct (loop_taring_in_progress E w (Hset 0%nat ltac:(lia)) Hready)
      as (Hcount & Hbegin & Hready').
    destruct (IH (exec (loop E) w) Hready') as (Hc & Hb).
    + intros i Hi. apply (Hset (S i)). lia.
    + cbn [run]. rewrite Hc, Hb. split; assumption.
Qed.

(** *** The readout *)

Lemma refreshReadout_spec (E : Env) (w : World) :
  let w' := exec (refreshReadout E) w in
  let elapsed := usub (toULong (millisAt E (tick w))) (previousUpdate w) in
  (elapsed < 500 ->
   lcdTrace w' = lcdTrace w /\ previousUpdate w' = previousUpdate w) /\
  (500 <= elapsed ->
   lcdTrace w' =
     LcdPrint [Txt "g   "] :: LcdPrint [Num (desiredWeight w) 2] ::
     LcdPrint [Txt "g/"] :: LcdPrint [Num (measuredWeight w) 2] ::
     LcdSetCursor 0 1 :: lcdTrace w /\
   previousUpdate w' = toULong (millisAt E (pred (tick w')))).
Proof.
  destruct w; unfold_prog; cbn. unfold SCREEN_UPDATE_DELAY.
  split; intros Hcmp.
  - apply Z.leb_gt in Hcmp. rewrite Hcmp. cbn. split; reflexivity.
  - apply Z.leb_le in Hcmp. rewrite Hcmp. cbn. split; reflexivity.
Qed.

(** X17. While dispensing goes on, the readout is redrawn at most once
    per 500 ms.  In a DISPENSING poll that does not complete, with the
    time since [previousUpdate] read after the sampling step: below
    500 ms nothing is sent to the display; from 500 ms on, the second row
    is rewritten with currentMass, "g/", targetMass, "g   " (two decimals
    each) and the 500 ms window restarts. *)
Theorem readout_is_rate_limited (E : Env) (w : World) :
  currentMode w = DISPENSING ->
  let w1 := exec (sampleSensor E) w in
  let w2 := exec (refreshReadout E) w1 in
  let w' := exec (loop E) w in
  let elapsed := usub (toULong (millisAt E (tick w1))) (previousUpdate w) in
  F32.geb (measuredWeight w') (desiredWeight w) = false ->
  (elapsed < 500 ->
   lcdTrace w' = lcdTrace w /\ previousUpdate w' = previousUpdate w) /\
  (500 <= elapsed ->
   lcdTrace w' =
     LcdPrint [Txt "g   "] :: LcdPrint [Num (desiredWeight w) 2] ::
     LcdPrint [Txt "g/"] :: LcdPrint [Num (measuredWeight w') 2] ::
     LcdSetCursor 0 1 :: lcdTrace w /\
   previousUpdate w' = toULong (millisAt E (pred (tick w2)))).
Proof.
  intros Hmode w1 w2 w' elapsed. subst w'.
  rewrite loop_dispatch, Hmode, controlDispensing_stages. fold w1. fold w2.
  pose proof (refreshReadout_spec E w1) as Hrefresh. cbv zeta in Hrefresh.
  fold w2 in Hrefresh.
  assert (Hw1 : lcdTrace w1 = lcdTrace w /\ previousUpdate w1 = previousUpdate w
                /\ desiredWeight w1 = desiredWeight w).
  { subst w1. destruct (sampleSensor_frame E w) as (m & lm & o1 & t1 & -> & Hl).
    repeat split. exact Hl. }
  destruct Hw1 as (Hlcd1 & Hpu1 & Hd1).
  rewrite Hlcd1, Hpu1, Hd1 in Hrefresh. fold elapsed in Hrefresh.
  assert (Hw2 : measuredWeight w2 = measuredWeight w1
                /\ desiredWeight w2 = desiredWeight w).
  { subst w2. destruct (refreshReadout_frame E w1) as (pu & o2 & t2 & ->).
    split; [reflexivity | exact Hd1]. }
  destruct Hw2 as (Hm2 & Hd2).
  set (w3 := exec (driveMotor E) w2).
  assert (Hw3 : measuredWeight w3 = measuredWeight w1
                /\ desiredWeight w3 = desiredWeight w
                /\ previousUpdate w3 = previousUpdate w2
                /\ lcdTrace w3 = lcdTrace w2).
  { subst w3. rewrite (proj2 (driveMotor_tare E w2)).
    destruct (driveMotor_frame E w2) as (a & lc & l1 & l2 & o3 & t3 & ->).
    repeat split; assumption. }
  destruct Hw3 as (Hm3 & Hd3 & Hpu3 & Hlcd3).
  destruct (manageMotor_spec E w3) as (Hm4 & _).
  rewrite Hm4, Hm3. intros Hgo.
  assert (Hlcd4 : lcdTrace (exec (manageMotor E) w3) = lcdTrace w2).
  { rewrite (proj2 (manageMotor_tare E w3)); [exact Hlcd3 |].
    rewrite Hm3, Hd3. exact Hgo. }
  assert (Hpu4 : previousUpdate (exec (manageMotor E) w3) = previousUpdate w2).
  { destruct (manageMotor_frame E w3)
      as (f & mo & l1' & l2' & md & ct & o4 & t4 & ->). exact Hpu3. }
  rewrite Hlcd4, Hpu4. exact Hrefresh.
Qed.

(** X18. The hypothesis of X1 is needed.  When the two [getData()]
    answers of one sample differ, the stored value carries the sign of
    the second: with 5 g then -3 g, [measuredWeight] becomes -3 g. *)
Theorem unstable_reading_is_stored_signed :
  let w := run unstableBench 6 (booted unstableBench) in
  let w' := exec (loop unstableBench) w in
  currentMode w = DISPENSING /\
  updateAt unstableBench (S (tick w)) = true /\
  dataAt unstableBench (S (S (tick w))) = F32.ofZ 5 /\
  dataAt unstableBench (S (S (S (tick w)))) = F32.ofZ (-3) /\
  measuredWeight w' = F32.ofZ (-3) /\
  F32.gtb (F32.ofZ 0) (measuredWeight w') = true.
Proof. vm_compute. repeat split. Qed.

(** *** The further properties at work on the bench *)

Lemma measured_weight_witness :
  measuredWeight (run negativeBench 7 (booted negativeBench)) = F32.ofZ 100 /\
  F32.gtb (F32.ofZ 0)
    (measuredWeight (run negativeBench 7 (booted negativeBench))) = false.
Proof.
  split; [vm_compute; reflexivity |].
  apply (measured_weight_never_negative negativeBench 7
           (booted negativeBench)).
  - intros i Hi.
    do 13 (destruct i as [| i];
           [first [discriminate Hi | vm_compute; reflexivity] |]).
    discriminate Hi.
  - vm_compute. reflexivity.
Defined.

Lemma motor_runs_witness :
  currentMode (run cycleBench 7 (booted cycleBench)) = DISPENSING /\
  isMotorOn (run cycleBench 7 (booted cycleBench)) = true.
Proof.
  assert (Hmode : currentMode (run cycleBench 7 (booted cycleBench))
                  = DISPENSING) by (vm_compute; reflexivity).
  split; [exact Hmode |].
  destruct (motor_runs_only_while_dispensing cycleBench 7
              (booted cycleBench)) as (_ & Hon & _);
    [vm_compute; reflexivity |].
  apply Hon, Hmode.
Defined.

Lemma full_power_witness :
  motorLine1 (run cycleBench 6 (booted cycleBench)) = HIGH /\
  motorLine2 (run cycleBench 6 (booted cycleBench)) = LOW.
Proof.
  destruct (cycle_starts_at_full_power cycleBench 6 (booted cycleBench))
    as (_ & Hcoarse); [vm_compute; reflexivity |].
  apply Hcoarse; vm_compute; reflexivity.
Defined.

Lemma target_positive_witness :
  F32.gtb (desiredWeight (run cycleBench 5 (booted cycleBench))) (F32.ofZ 0)
  = true.
Proof.
  apply (target_positive_during_cycle cycleBench 5 (booted cycleBench)).
  - vm_compute. reflexivity.
  - vm_compute. discriminate.
Defined.

Lemma buffer_alphabet_witness :
  entryOnly (userInput (run pointsBench 2 (booted pointsBench))) = true.
Proof.
  apply (buffer_holds_only_digits_and_points pointsBench 2
           (booted pointsBench)).
  vm_compute. reflexivity.
Defined.

Lemma cancel_witness :
  userInput (run cancelBench 1 (booted cancelBench)) = "5" /\
  userInput (exec (loop cancelBench) (run cancelBench 1 (booted cancelBench))) = EmptyString.
Proof.
  split; [vm_compute; reflexivity |].
  apply (cancel_clears_buffer_and_prompts cancelBench
           (run cancelBench 1 (booted cancelBench)));
    vm_compute; reflexivity.
Defined.

Lemma typed_entry_witness :
  desiredWeight (run cycleBench 4 (booted cycleBench)) =
    toFloat cycleBench "500" /\
  currentMode (run cycleBench 4 (booted cycleBench)) = ZEROING.
Proof.
  refine (proj2 (typed_entry_becomes_target cycleBench
                   ["5"; "0"; "0"]%char (booted cycleBench)
                   _ _ _ _ _ _) _ _).
  - vm_compute. reflexivity.
  - vm_compute. reflexivity.
  - discriminate.
  - simpl. lia.
  - repeat constructor.
  - intros i Hi. simpl in Hi.
    destruct i as [| [| [| i]]]; [reflexivity | reflexivity | reflexivity | lia].
  - vm_compute. reflexivity.
  - vm_compute. reflexivity.
Defined.

Lemma first_taring_poll_witness :
  tareCommands (run cycleBench 4 (booted cycleBench)) = 0%nat /\
  tareCommands (exec (loop cycleBench) (run cycleBench 4 (booted cycleBench))) = 1%nat.
Proof.
  split; [vm_compute; reflexivity |].
  destruct (first_taring_poll_starts_handshake cycleBench
              (run cycleBench 4 (booted cycleBench))) as (Hcount & _);
    [vm_compute; reflexivity | vm_compute; reflexivity |].
  rewrite Hcount. vm_compute. reflexivity.
Defined.

Lemma taring_waits_witness :
  tareCommands (exec (loop waitBench) (run waitBench 3 (booted waitBench))) =
  tareCommands (run waitBench 3 (booted waitBench)).
Proof.
  apply (taring_poll_waits waitBench (run waitBench 3 (booted waitBench)));
    try (vm_compute; reflexivity).
  - vm_compute. discriminate.
  - left. vm_compute. reflexivity.
Defined.

Lemma tare_success_witness :
  isTaring (exec (loop cycleBench) (run cycleBench 5 (booted cycleBench))) = false /\
  isMotorOn (exec (loop cycleBench) (run cycleBench 5 (booted cycleBench))) = true.
Proof.
  destruct (tare_success_starts_motor cycleBench
              (run cycleBench 5 (booted cycleBench)))
    as (Hre & Hon & _); try (vm_compute; reflexivity).
  - vm_compute. discriminate.
  - split; assumption.
Defined.

Lemma finished_dwell_witness :
  currentMode (exec (loop cycleBench) (run cycleBench 8 (booted cycleBench))) = WEIGHT_INPUT.
Proof.
  refine (proj2 (proj2 (finished_dwell_is_wrap_safe cycleBench
                          (run cycleBench 8 (booted cycleBench)) 5397
                          _ _ _) _)).
  - vm_compute. reflexivity.
  - unfold ULONG. lia.
  - vm_compute. reflexivity.
  - lia.
Defined.

Lemma sampling_witness :
  measuredWeight (exec (loop cycleBench) (run cycleBench 6 (booted cycleBench))) = F32.ofZ 100.
Proof.
  destruct (sampling_is_rate_limited cycleBench
              (run cycleBench 6 (booted cycleBench))) as (_ & Hdue);
    [vm_compute; reflexivity |].
  destruct Hdue as (Hm & _); [vm_compute; discriminate |].
  rewrite Hm. vm_compute. reflexivity.
Defined.

Lemma cycle_keeps_witness :
  userInput (exec (loop cycleBench) (run cycleBench 6 (booted cycleBench))) = "500".
Proof.
  destruct (cycle_keeps_buffer_and_target cycleBench
              (run cycleBench 6 (booted cycleBench)))
    as [Hreset | (Hbuf & _)].
  - vm_compute. discriminate.
  - destruct Hreset as (v & evs & Hv & _).
    apply (f_equal currentMode) in Hv. destruct v.
    vm_compute in Hv. discriminate Hv.
  - rewrite Hbuf. vm_compute. reflexivity.
Defined.

Lemma handshake_never_restarted_witness :
  currentMode (run retryBench 6 (booted retryBench)) = ZEROING /\
  tareCommands (run retryBench 4 (run retryBench 3 (booted retryBench)))
  = 1%nat /\
  tareBeginTime (run retryBench 4 (run retryBench 3 (booted retryBench)))
  = 1000.
Proof.
  split; [vm_compute; reflexivity |].
  destruct (handshake_in_progress_is_never_restarted retryBench 4
              (run retryBench 3 (booted retryBench))) as (Hc & Hb).
  - vm_compute. reflexivity.
  - intros i Hi.
    destruct i as [| [| [| [| [| i]]]]];
      [vm_compute; reflexivity .. | lia].
  - rewrite Hc, Hb. split; vm_compute; reflexivity.
Defined.

Lemma readout_witness :
  previousUpdate (exec (loop cycleBench) (run cycleBench 6 (booted cycleBench))) = 1301.
Proof.
  destruct (readout_is_rate_limited cycleBench
              (run cycleBench 6 (booted cycleBench))) as (_ & Hdue);
    [vm_compute; reflexivity | vm_compute; reflexivity |].
  destruct Hdue as (_ & Hpu); [vm_compute; discriminate |].
  rewrite Hpu. vm_compute. reflexivity.
Defined.
